(** * Azure reservation recommendation tool: a shallow embedding

    The program under study is [azure-reservation-analysis.py].  It has two
    halves: [generate_vm_recommendations] pairs Advisor savings rows with
    running virtual machines, and [build_azure_pricing] /
    [build_final_dataframes] turn retail price items into the rows of the
    cost spreadsheets.

    Conventions of the embedding.
    - Python [str] is [string], holding the bytes of the UTF-8 encoding.
      [strip] removes the white space of Python, inside and outside
      ASCII; [replace], [split] and the [in] test work on bytes, which
      agrees with code points on well-formed text; [lower] changes the
      letters of ASCII and leaves bytes above 127 alone.
    - A finite [float] is the rational it denotes ([Q]); comparisons are
      exact on them.  The monthly costs of the price classifier are
      computed in binary64 ([Binary64]), since rounding to two decimals
      shows the last bit of a product.  The sums and differences of the
      report tables are taken in [Q], without the rounding of the last
      bit.  The Annual Savings of an Advisor row may be a NaN or an
      infinity ([PyNum.pyfloat]); where [float] reads one from a cost
      cell the run leaves the model ([NonFinite]).
    - A [dict] whose iteration order is never observed is a [gmap], a [set]
      is a [gset]; a [dict] whose order is observed ([by_term],
      [vm_pricing]) is an association list in insertion order.
    - An exception that leaves a function is a value [Raise e]. *)

From Stdlib Require Import QArith Qabs ZArith String Ascii DecimalString DecimalN List Lia
  Sorted Permutation.
From Stdlib Require SpecFloat.
From stdpp Require Import base gmap strings list.

Import ListNotations.
Local Open Scope string_scope.
Local Open Scope list_scope.

(** ** Python string operations *)

Module PyStr.

Definition is_upper (c : ascii) : bool :=
  let n := nat_of_ascii c in (65 <=? n)%nat && (n <=? 90)%nat.

Definition lower_char (c : ascii) : ascii :=
  if is_upper c then ascii_of_nat (nat_of_ascii c + 32) else c.

(** [s.lower()] *)
Fixpoint lower (s : string) : string :=
  match s with
  | EmptyString => EmptyString
  | String c s' => String (lower_char c) (lower s')
  end.

(** A [str] is held as the bytes of its UTF-8 encoding.  The single
    bytes [str.strip()] removes: tab, line feed, vertical tab, form feed,
    carriage return, the four separators 28..31 and space. *)
Definition is_space (c : ascii) : bool :=
  let n := nat_of_ascii c in
  ((9 <=? n)%nat && (n <=? 13)%nat) || ((28 <=? n)%nat && (n <=? 32)%nat).

(** The white space outside ASCII, in UTF-8: U+0085 and U+00A0 take two
    bytes; U+1680, U+2000..U+200A, U+2028, U+2029, U+202F, U+205F and
    U+3000 take three. *)
Definition is_space2 (a b : ascii) : bool :=
  (nat_of_ascii a =? 194)%nat
  && ((nat_of_ascii b =? 133)%nat || (nat_of_ascii b =? 160)%nat).

Definition is_space3 (a b c : ascii) : bool :=
  ((nat_of_ascii a =? 225)%nat && (nat_of_ascii b =? 154)%nat && (nat_of_ascii c =? 128)%nat)
  || ((nat_of_ascii a =? 226)%nat && (nat_of_ascii b =? 128)%nat
      && (((128 <=? nat_of_ascii c)%nat && (nat_of_ascii c <=? 138)%nat)
          || (nat_of_ascii c =? 168)%nat || (nat_of_ascii c =? 169)%nat
          || (nat_of_ascii c =? 175)%nat))
  || ((nat_of_ascii a =? 226)%nat && (nat_of_ascii b =? 129)%nat
      && (nat_of_ascii c =? 159)%nat)
  || ((nat_of_ascii a =? 227)%nat && (nat_of_ascii b =? 128)%nat
      && (nat_of_ascii c =? 128)%nat).

(** The string without the white-space characters at its head.  [one]
    tells the single bytes that count; [backwards] is set when the bytes
    come in reverse order, as they do when the end of a string is
    stripped. *)
Fixpoint drop_spaces (one : ascii -> bool) (backwards : bool) (s : string) : string :=
  match s with
  | EmptyString => EmptyString
  | String a s1 =>
      if one a then drop_spaces one backwards s1
      else
        match s1 with
        | EmptyString => s
        | String b s2 =>
            if (if backwards then is_space2 b a else is_space2 a b)
            then drop_spaces one backwards s2
            else
              match s2 with
              | EmptyString => s
              | String c s3 =>
                  if (if backwards then is_space3 c b a else is_space3 a b c)
                  then drop_spaces one backwards s3
                  else s
              end
        end
  end.

Fixpoint reverse_onto (s acc : string) : string :=
  match s with
  | EmptyString => acc
  | String c s' => reverse_onto s' (String c acc)
  end.

Definition reverse (s : string) : string := reverse_onto s EmptyString.

Definition strip_with (one : ascii -> bool) (s : string) : string :=
  reverse (drop_spaces one true (reverse (drop_spaces one false s))).

(** [s.strip()] *)
Definition strip (s : string) : string := strip_with is_space s.

(** [s.startswith(p)] *)
Definition startswith (p s : string) : bool := String.prefix p s.

(** [needle in hay] *)
Fixpoint contains (needle hay : string) : bool :=
  String.prefix needle hay ||
  match hay with
  | EmptyString => false
  | String _ hay' => contains needle hay'
  end.

(** [s.replace(old, new)] for a non-empty [old]: occurrences are replaced
    from the left and do not overlap.  [skip] counts the characters of a
    replaced occurrence that are still to be dropped. *)
Fixpoint replace_from (old new : string) (skip : nat) (s : string) : string :=
  match s with
  | EmptyString => EmptyString
  | String c s' =>
      match skip with
      | S k => replace_from old new k s'
      | O =>
          if String.prefix old s
          then new +:+ replace_from old new (String.length old - 1) s'
          else String c (replace_from old new 0 s')
      end
  end.

Definition replace (old new s : string) : string := replace_from old new 0 s.

(** [s.str.contains(pat, case=False)] of pandas, for a pattern without
    regular-expression metacharacters. *)
Definition icontains (pat s : string) : bool := contains (lower pat) (lower s).

End PyStr.

(** ** Python numbers *)

Module PyNum.

(** [int(x)] on a finite float: truncation toward zero. *)
Definition py_int (x : Q) : Z := Z.quot (Qnum x) (Z.pos (Qden x)).

(** Rounding to the nearest integer, ties to the even one: the rule of
    [round] and of the [.2f] format. *)
Definition round_half_even (x : Q) : Z :=
  let n := Qnum x in
  let d := Z.pos (Qden x) in
  let f := (n / d)%Z in
  let r := (2 * (n mod d))%Z in
  if (r <? d)%Z then f
  else if (d <? r)%Z then (f + 1)%Z
  else if Z.even f then f else (f + 1)%Z.

(** The number of hundredths nearest to [x]. *)
Definition cents (x : Q) : Z := round_half_even (x * 100).

(** [round(x, 2)] *)
Definition round2 (x : Q) : Q := cents x # 100.

Definition string_of_N (n : N) : string := NilZero.string_of_uint (N.to_uint n).

(** Thousands separators: a comma before every group of three digits,
    counted from the right.  [n] is the number of digits of [s]. *)
Fixpoint group_from (n : nat) (s : string) : string :=
  match s with
  | EmptyString => EmptyString
  | String c s' =>
      match n with
      | S (S k as m) =>
          if (m mod 3 =? 0)%nat then String c (String "," (group_from m s'))
          else String c (group_from m s')
      | _ => String c (group_from (pred n) s')
      end
  end.

Definition group_thousands (s : string) : string := group_from (String.length s) s.

Definition two_digits (n : N) : string :=
  if (n <? 10)%N then "0" +:+ string_of_N n else string_of_N n.

(** [f"{x:,.2f}"] *)
Definition format_2f (x : Q) : string :=
  let k := Z.abs_N (cents x) in
  let body := group_thousands (string_of_N (k / 100)) +:+ "." +:+ two_digits (k mod 100) in
  if Qle_bool 0 x then body else "-" +:+ body.

(** [f"${x:,.2f}"] *)
Definition format_money (x : Q) : string := "$" +:+ format_2f x.

(** *** Floats that need not be finite *)

(** A [float] where the program can meet one that is not a number: a
    finite value, an infinity or a NaN. *)
Inductive pyfloat :=
| Fin (q : Q)
| PosInf
| NegInf
| NaN.

(** [x <= y]: false as soon as one side is a NaN. *)
Definition fle (x y : pyfloat) : bool :=
  match x, y with
  | NaN, _ | _, NaN => false
  | NegInf, _ => true
  | _, PosInf => true
  | Fin a, Fin b => Qle_bool a b
  | _, _ => false
  end.

(** [x < y] *)
Definition flt (x y : pyfloat) : bool := fle x y && negb (fle y x).

Definition is_nan (x : pyfloat) : bool :=
  match x with
  | NaN => true
  | _ => false
  end.

(** The test the comparison of two containers makes on their floats:
    the same object, or equal values.  Two NaN are taken for the same
    object here. *)
Definition fsame (x y : pyfloat) : bool :=
  match x, y with
  | Fin a, Fin b => Qeq_bool a b
  | PosInf, PosInf | NegInf, NegInf | NaN, NaN => true
  | _, _ => false
  end.

(** The largest float. *)
Definition max_float : Q := inject_Z (2 ^ 1024 - 2 ^ 971).

(** *** [float(s)] *)

Definition is_digit (c : ascii) : bool :=
  let n := nat_of_ascii c in (48 <=? n)%nat && (n <=? 57)%nat.

Definition digit_val (c : ascii) : N := N.of_nat (nat_of_ascii c - 48).

(** The rest of a digit part, after its first digit: digits, each
    optionally preceded by one underscore. *)
Fixpoint digits_tail (s : string) : list N * string :=
  match s with
  | EmptyString => ([], EmptyString)
  | String c s' =>
      if is_digit c then
        let '(ds, r) := digits_tail s' in (digit_val c :: ds, r)
      else if Ascii.eqb c "_" then
        match s' with
        | String c2 s'' =>
            if is_digit c2 then
              let '(ds, r) := digits_tail s'' in (digit_val c2 :: ds, r)
            else ([], s)
        | EmptyString => ([], s)
        end
      else ([], s)
  end.

(** A digit part at the head of [s], or no digit at all. *)
Definition digitpart (s : string) : list N * string :=
  match s with
  | String c s' =>
      if is_digit c then
        let '(ds, r) := digits_tail s' in (digit_val c :: ds, r)
      else ([], s)
  | EmptyString => ([], EmptyString)
  end.

Definition N_of_digits (ds : list N) : N :=
  fold_left (fun acc d => (10 * acc + d)%N) ds 0%N.

(** What [float] makes of a string. *)
Inductive parsed :=
| PNum (q : Q)      (* a finite number *)
| PSpecial          (* an infinity or a NaN: "inf", "infinity" or "nan", with or
                       without sign, or a number beyond the range of float *)
| PForeign          (* a character outside ASCII is left after stripping: float
                       reads the decimal digits of other scripts and raises on
                       the rest, and neither is followed here *)
| PError.           (* ValueError *)

Definition scale10 (m : Z) (e : Z) : Q :=
  if (0 <=? e)%Z then inject_Z (m * 10 ^ e)
  else m # Z.to_pos (10 ^ (- e)).

(** The optional exponent at the end of a number. *)
Definition parse_exponent (s : string) : option Z :=
  match s with
  | EmptyString => Some 0%Z
  | String c s' =>
      if Ascii.eqb c "e" || Ascii.eqb c "E" then
        let '(neg, s'') :=
          match s' with
          | String "-" t => (true, t)
          | String "+" t => (false, t)
          | _ => (false, s')
          end in
        match digitpart s'' with
        | ([], _) => None
        | (ds, EmptyString) =>
            let e := Z.of_N (N_of_digits ds) in Some (if neg then (- e)%Z else e)
        | (_, String _ _) => None
        end
      else None
  end.

Definition parse_unsigned (s : string) : option Q :=
  let '(ip, r1) := digitpart s in
  let '(fp, r2) :=
    match r1 with
    | String "." t => digitpart t
    | _ => ([], r1)
    end in
  let after_point :=
    match r1 with
    | String "." t => match fp with [] => t | _ => r2 end
    | _ => r1
    end in
  match ip, fp with
  | [], [] => None
  | _, _ =>
      match parse_exponent after_point with
      | Some e =>
          Some (scale10 (Z.of_N (N_of_digits (ip ++ fp))) (e - Z.of_nat (length fp)))
      | None => None
      end
  end.

Definition is_special (s : string) : bool :=
  let l := PyStr.lower s in
  String.eqb l "inf" || String.eqb l "infinity" || String.eqb l "nan".

(** The single bytes [float] strips: those of C's [isspace].  The
    separators 28..31 are not among them. *)
Definition is_c_space (c : ascii) : bool :=
  let n := nat_of_ascii c in ((9 <=? n)%nat && (n <=? 13)%nat) || (n =? 32)%nat.

(** A byte of ASCII that [float] does not strip. *)
Definition plain_char (c : ascii) : bool :=
  negb (is_c_space c) && (nat_of_ascii c <? 128)%nat.

(** White space outside ASCII becomes a space before the number is read,
    so it is stripped as well. *)
Definition float_strip (s : string) : string := PyStr.strip_with is_c_space s.

Fixpoint is_ascii (s : string) : bool :=
  match s with
  | EmptyString => true
  | String c s' => (nat_of_ascii c <? 128)%nat && is_ascii s'
  end.

(** The least magnitude that rounds to an infinity: half an ulp above the
    largest float. *)
Definition overflow_bound : Q := inject_Z (2 ^ 1024 - 2 ^ 970).

Definition py_float (s : string) : parsed :=
  let t := float_strip s in
  if negb (is_ascii t) then PForeign
  else
    let '(neg, body) :=
      match t with
      | String "-" b => (true, b)
      | String "+" b => (false, b)
      | _ => (false, t)
      end in
    if is_special body then PSpecial
    else match parse_unsigned body with
         | Some q =>
             if Qle_bool overflow_bound q then PSpecial
             else PNum (if neg then - q else q)
         | None => PError
         end.

End PyNum.

(** ** Float arithmetic *)

(** The products and quotients of the price classifier are rounded to
    binary64 before [round] sees them; they are computed here with the
    IEEE 754 operations of the Standard Library's [SpecFloat], at
    precision 53 and exponent bound 1024. *)
Module Binary64.
Import PyNum.

Definition float : Type := SpecFloat.spec_float.

Definition prec : Z := 53.
Definition emax : Z := 1024.

(** The float nearest to a rational, ties to the even one, and an
    infinity beyond the range: what reading a decimal gives, and what the
    value of a float gives back unchanged. *)
Definition of_Q (q : Q) : float :=
  match Qnum q with
  | Z0 => SpecFloat.S754_zero false
  | Zpos n =>
      SpecFloat.SFdiv prec emax (SpecFloat.S754_finite false n 0)
        (SpecFloat.S754_finite false (Qden q) 0)
  | Zneg n =>
      SpecFloat.SFdiv prec emax (SpecFloat.S754_finite true n 0)
        (SpecFloat.S754_finite false (Qden q) 0)
  end.

(** The value of a finite float. *)
Definition to_Q (x : float) : Q :=
  match x with
  | SpecFloat.S754_finite s m e =>
      let v := if (0 <=? e)%Z then inject_Z (Z.pos m * 2 ^ e)
               else Z.pos m # Z.to_pos (2 ^ (- e)) in
      if s then (- v)%Q else v
  | _ => 0%Q
  end.

(** [x * y] and [x / y] *)
Definition mul (x y : float) : float := SpecFloat.SFmul prec emax x y.
Definition div (x y : float) : float := SpecFloat.SFdiv prec emax x y.

(** [round(x, 2)]: the hundredth nearest to the exact value of [x], ties
    to the even one, read back as a float.  A zero keeps the sign of
    [x]; an infinity and a NaN are returned as they are. *)
Definition round2 (x : float) : float :=
  match x with
  | SpecFloat.S754_finite s _ _ =>
      match cents (to_Q x) with
      | Z0 => SpecFloat.S754_zero s
      | c => of_Q (c # 100)
      end
  | _ => x
  end.

(** [f"{x:,.2f}"] *)
Definition format_2f (x : float) : string :=
  match x with
  | SpecFloat.S754_nan => "nan"
  | SpecFloat.S754_infinity s => if s then "-inf" else "inf"
  | SpecFloat.S754_zero s => if s then "-0.00" else "0.00"
  | SpecFloat.S754_finite _ _ _ => PyNum.format_2f (to_Q x)
  end.

(** [f"${x:,.2f}"] *)
Definition format_money (x : float) : string := "$" +:+ format_2f x.

End Binary64.

(** ** [sorted] and [list.sort] on a numeric key *)

Module PySort.
Section Stable.
Context {A : Type} (key : A -> Q).

(** Descending order ([reverse=True]).  An element is placed in front
    of the first element whose key is not larger, so that among equal
    keys the earlier element of the input stays in front: the sort is
    stable, as Python's is. *)
Fixpoint insert_desc (r : A) (l : list A) : list A :=
  match l with
  | [] => [r]
  | x :: l' =>
      if Qle_bool (key x) (key r) then r :: x :: l'
      else x :: insert_desc r l'
  end.

Definition sort_desc (l : list A) : list A := foldr insert_desc [] l.

(** Ascending order, stable in the same way. *)
Fixpoint insert_asc (r : A) (l : list A) : list A :=
  match l with
  | [] => [r]
  | x :: l' =>
      if Qle_bool (key r) (key x) then r :: x :: l'
      else x :: insert_asc r l'
  end.

Definition sort_asc (l : list A) : list A := foldr insert_asc [] l.

(** The order of two neighbours in a list sorted downwards, and in one
    sorted upwards. *)
Definition descending : A -> A -> Prop := fun a b => (key b <= key a)%Q.
End Stable.

Section FloatKeys.
Context {A : Type} (key : A -> PyNum.pyfloat).

(** The same insertion with keys that may be infinite. *)
Fixpoint insert_desc_float (r : A) (l : list A) : list A :=
  match l with
  | [] => [r]
  | x :: l' =>
      if PyNum.fle (key x) (key r) then r :: x :: l'
      else x :: insert_desc_float r l'
  end.

Definition sort_desc_float (l : list A) : list A := foldr insert_desc_float [] l.


Definition has_nan (l : list A) : bool := existsb (fun r => PyNum.is_nan (key r)) l.

(** No element is smaller than the one after it: the list, read from its
    end, is a single run for [list.sort]. *)
Fixpoint no_ascent (l : list A) : bool :=
  match l with
  | a :: (b :: _) as l' => negb (PyNum.flt (key a) (key b)) && no_ascent l'
  | _ => true
  end.

(** A list put in another order: every element is inserted into the
    arrangement of the elements after it, at the place the next number of
    [choices] tells.  Whatever the choices, the outcome has the elements
    of the list, and every order of them is the outcome of some
    choices. *)
Fixpoint arrange (choices : list nat) (l : list A) : list A :=
  match l with
  | [] => []
  | x :: l' =>
      let rest := arrange (tl choices) l' in
      let i := hd 0%nat choices in
      take i rest ++ x :: drop i rest
  end.

(** [l.sort(key=key, reverse=True)].  When no key is a NaN the keys are
    totally ordered and the outcome is the stable descending sort.  With
    a NaN among the keys [<] is no order; if no element is smaller than
    its successor, the sort finds the reversed list to be one run and
    leaves the list as it is.  Otherwise the outcome is some order of the
    elements that depends on the merge strategy of the interpreter at
    hand: [arrangement] stands for it. *)
Definition list_sort_desc (arrangement : list nat) (l : list A) : list A :=
  if negb (has_nan l) then sort_desc_float l
  else if no_ascent l then l
  else arrange arrangement l.
End FloatKeys.
End PySort.

(** ** Raised exceptions *)

Module PyExn.

Inductive exn := ValueError | KeyError | AttributeError.

(** The outcome of a call: a value, an exception, or a run that goes on
    with a NaN or an infinity, or with a number that [float] read from
    digits outside ASCII, and so leaves the rational model. *)
Inductive result (A : Type) : Type :=
| Ok (a : A)
| Raise (e : exn)
| NonFinite.
Arguments Ok {A} a.
Arguments Raise {A} e.
Arguments NonFinite {A}.

#[export] Instance result_ret : MRet result := fun _ a => Ok a.
#[export] Instance result_bind : MBind result := fun _ _ f m =>
  match m with
  | Ok a => f a
  | Raise e => Raise e
  | NonFinite => NonFinite
  end.

(** A [for] loop whose body may raise: the first exception ends it. *)
Fixpoint for_each {A B : Type} (f : A -> result B) (l : list A) : result (list B) :=
  match l with
  | [] => Ok []
  | a :: l' => b ← f a; bs ← for_each f l'; mret (b :: bs)
  end.

End PyExn.

(** ** Section 1 of the program: matching Advisor rows to virtual machines *)

Module Matcher.
Import PyExn.

(** One entry of a [vm_pool] list (the dict built per VM name). *)
Record vm_entry := mk_vm {
  vm_name : string;
  vm_size : string;
  vm_os : string;
  vm_os_name : string;
  vm_region : string;
  vm_tags : string
}.

(** One row of the Advisor sheet.  A Description cell holds a text or
    none ([None]: an empty cell or a number), which [na=False] turns into
    "no match".  [float] of the Annual Savings cell is a number or, for
    an empty cell, NaN.  The Quantity cell holds a number; an empty one,
    on which [int] raises, is not followed here. *)
Record advisor_row := mk_adv {
  adv_category : string;
  adv_impact : string;
  adv_description : option string;
  adv_sku : string;
  adv_savings_region : string;
  adv_quantity : Q;
  adv_annual_savings : PyNum.pyfloat;
  adv_name : string
}.

(** An element of [recommendations]: the outer dict with its one-element
    "Recommendations" list, flattened. *)
Record recommendation := mk_rec {
  rec_subscription : string;
  rec_vm_name : string;
  rec_vm_size : string;
  rec_sku : string;
  rec_recommendation : string;
  rec_annual_savings : PyNum.pyfloat;
  rec_impact : string;
  rec_region : string;
  rec_os : string;
  rec_os_name : string;
  rec_tags : string
}.

(** An element of [inputs.json]. *)
Record input_row := mk_input {
  in_region : string;
  in_sku : string;
  in_os : string;
  in_os_name : string;
  in_vm_name : string;
  in_tags : string
}.

Definition savings_threshold : Q := 10.

(** The Advisor filter: Category == "Cost", Impact == "High" and a
    description that mentions "reserved instance" in any case. *)
Definition eligible (adv : advisor_row) : bool :=
  String.eqb (adv_category adv) "Cost"
  && String.eqb (adv_impact adv) "High"
  && match adv_description adv with
     | Some d => PyStr.icontains "reserved instance" d
     | None => false
     end.

(** The Description column holds no text at all: pandas then reads it
    as a column of numbers, which has no [.str]. *)
Definition no_text (advisor_df : list advisor_row) : bool :=
  forallb (fun adv => match adv_description adv with
                      | Some _ => false
                      | None => true
                      end) advisor_df.

(** The filtered frame.  The mask is computed over the whole sheet, so
    [.str] raises whatever the other two columns hold; a sheet without
    rows has a column of objects and passes. *)
Definition advisor_filter (advisor_df : list advisor_row) : result (list advisor_row) :=
  match advisor_df with
  | [] => Ok []
  | _ => if no_text advisor_df then Raise AttributeError
         else Ok (List.filter eligible advisor_df)
  end.

Definition pool_key (adv : advisor_row) : string * string :=
  (PyStr.strip (adv_sku adv), PyStr.strip (PyStr.lower (adv_savings_region adv))).

Definition make_rec (adv : advisor_row) (vm : vm_entry) : recommendation :=
  {| rec_subscription := adv_name adv;
     rec_vm_name := vm_name vm;
     rec_vm_size := vm_size vm;
     rec_sku := adv_sku adv;
     rec_recommendation := default EmptyString (adv_description adv);
     rec_annual_savings := adv_annual_savings adv;
     rec_impact := adv_impact adv;
     rec_region := adv_savings_region adv;
     rec_os := vm_os vm;
     rec_os_name := vm_os_name vm;
     rec_tags := vm_tags vm |}.

(** The state the two nested loops mutate: the list [recommendations]
    and the set [seen_vms]. *)
Definition match_state : Type := list recommendation * gset string.

(** The inner loop [for vm in pool], entered with [selected] claims made
    so far for this Advisor row.  The test [selected >= quantity] is made
    after a claim, as in the source. *)
Fixpoint claim_pool (adv : advisor_row) (quantity : Z) (pool : list vm_entry)
    (selected : Z) (st : match_state) : match_state :=
  match pool with
  | [] => st
  | vm :: rest =>
      if decide (vm_name vm ∈ st.2) then claim_pool adv quantity rest selected st
      else
        let st' := (st.1 ++ [make_rec adv vm], {[vm_name vm]} ∪ st.2) in
        let selected' := (selected + 1)%Z in
        if (quantity <=? selected')%Z then st'
        else claim_pool adv quantity rest selected' st'
  end.

(** One iteration of [for _, adv in advisor_filtered.iterrows()]. *)
Definition match_row (vm_pool : gmap (string * string) (list vm_entry))
    (st : match_state) (adv : advisor_row) : match_state :=
  let quantity := PyNum.py_int (adv_quantity adv) in
  let pool := default [] (vm_pool !! pool_key adv) in
  claim_pool adv quantity pool 0 st.

Definition build_recommendations (vm_pool : gmap (string * string) (list vm_entry))
    (advisor_filtered : list advisor_row) : match_state :=
  foldl (match_row vm_pool) ([], ∅) advisor_filtered.

(** [recommendations.sort(key=lambda rec: rec[...]["Annual Savings"],
    reverse=True)] *)
Definition sort_recommendations (arrangement : list nat) (l : list recommendation)
    : list recommendation :=
  PySort.list_sort_desc rec_annual_savings arrangement l.

(** [==] on two elements of [recommendations]: dict equality, field by
    field.  The test is only ever reached between entries whose savings
    are above 1, hence numbers. *)
Definition rec_eqb (a b : recommendation) : bool :=
  String.eqb (rec_subscription a) (rec_subscription b)
  && String.eqb (rec_vm_name a) (rec_vm_name b)
  && String.eqb (rec_vm_size a) (rec_vm_size b)
  && String.eqb (rec_sku a) (rec_sku b)
  && String.eqb (rec_recommendation a) (rec_recommendation b)
  && PyNum.fsame (rec_annual_savings a) (rec_annual_savings b)
  && String.eqb (rec_impact a) (rec_impact b)
  && String.eqb (rec_region a) (rec_region b)
  && String.eqb (rec_os a) (rec_os b)
  && String.eqb (rec_os_name a) (rec_os_name b)
  && String.eqb (rec_tags a) (rec_tags b).

(** [rec in l] *)
Definition rec_in (r : recommendation) (l : list recommendation) : bool :=
  existsb (rec_eqb r) l.

(** [rec[...]["Annual Savings"] >= savings_threshold] *)
Definition meets_threshold (r : recommendation) : bool :=
  PyNum.fle (PyNum.Fin savings_threshold) (rec_annual_savings r).

(** [rec[...]["Annual Savings"] > 1] *)
Definition above_one (r : recommendation) : bool :=
  PyNum.flt (PyNum.Fin 1) (rec_annual_savings r).

(** The first comprehension: savings >= savings_threshold. *)
Definition threshold_part (recommendations : list recommendation) : list recommendation :=
  List.filter meets_threshold recommendations.

(** The second comprehension with its slice [: 20 - len(impact_recs)],
    evaluated when fewer than 20 entries met the threshold. *)
Definition backfill_part (recommendations : list recommendation) : list recommendation :=
  let impact_recs := threshold_part recommendations in
  if (length impact_recs <? 20)%nat
  then take (20 - length impact_recs)
         (List.filter (fun r => above_one r && negb (rec_in r impact_recs)) recommendations)
  else [].

(** The value of [impact_recs] written to output.json. *)
Definition select_impact (recommendations : list recommendation) : list recommendation :=
  threshold_part recommendations ++ backfill_part recommendations.

(** The entries the backfill draws from: above 1 and below the
    threshold. *)
Definition remainder (r : recommendation) : bool :=
  above_one r && negb (meets_threshold r).

(** What the two loops maintain: the claimed names are pairwise distinct
    and all recorded in [seen_vms]. *)
Definition claims_ok (st : match_state) : Prop :=
  NoDup (rec_vm_name <$> st.1) ∧ ∀ n, n ∈ rec_vm_name <$> st.1 → n ∈ st.2.

(** The VMs of a pool not yet claimed. *)
Definition unclaimed (seen : gset string) (pool : list vm_entry) : list vm_entry :=
  filter (λ vm, vm_name vm ∉ seen) pool.

Definition to_input (r : recommendation) : input_row :=
  {| in_region := rec_region r;
     in_sku := rec_sku r;
     in_os := rec_os r;
     in_os_name := rec_os_name r;
     in_vm_name := rec_vm_name r;
     in_tags := rec_tags r |}.

Record run_output := mk_out {
  out_recommendations : list recommendation;
  out_impact_recs : list recommendation;
  out_inputs : list input_row
}.

(** What follows the Advisor filter. *)
Definition recommend (arrangement : list nat)
    (vm_pool : gmap (string * string) (list vm_entry))
    (advisor_filtered : list advisor_row) : run_output :=
  let recommendations :=
    sort_recommendations arrangement (build_recommendations vm_pool advisor_filtered).1 in
  let impact_recs := select_impact recommendations in
  {| out_recommendations := recommendations;
     out_impact_recs := impact_recs;
     out_inputs := map to_input impact_recs |}.

(** [generate_vm_recommendations], from the two sheets already loaded:
    the Advisor rows and the pool of running VMs keyed by
    (size, lower-cased region).  [arrangement] is looked at only when the
    sort meets NaN keys that it cannot leave in place. *)
Definition generate_vm_recommendations (arrangement : list nat)
    (advisor_df : list advisor_row)
    (vm_pool : gmap (string * string) (list vm_entry)) : result run_output :=
  advisor_filtered ← advisor_filter advisor_df;
  Ok (recommend arrangement vm_pool advisor_filtered).

End Matcher.

(** ** Ordered dictionaries *)

Module PyDict.
Section Ordered.
Context {V : Type}.

(** [d.get(k)] on a dict kept in insertion order. *)
Fixpoint get (k : string) (d : list (string * V)) : option V :=
  match d with
  | [] => None
  | (k', v) :: d' => if String.eqb k' k then Some v else get k d'
  end.

(** [d[k] = v]: a key already present keeps its place, a new key goes
    to the end. *)
Fixpoint set (k : string) (v : V) (d : list (string * V)) : list (string * V) :=
  match d with
  | [] => [(k, v)]
  | (k', v') :: d' =>
      if String.eqb k' k then (k', v) :: d' else (k', v') :: set k v d'
  end.

Definition keys (d : list (string * V)) : list string := map fst d.
Definition values (d : list (string * V)) : list V := map snd d.
End Ordered.
End PyDict.


(** ** Section 2 of the program: retail prices to report rows *)

Module Pricing.
Import PyStr PyNum.

(** An item of the Retail Prices response.  A key the JSON object lacks
    is [None]; [p.get(k, d)] is [default d].  The unit price is the
    number of the JSON text, taken by its value.  A real has been read as
    the nearest float; where arithmetic is done on it, [Binary64.of_Q]
    rounds a value that is no float in the same way and leaves the value
    of a float as it is.  An integer is taken to be below 2^53, where it
    behaves as the float of the same value, and a zero is the zero of
    positive sign. *)
Record price_item := mk_item {
  it_type : option string;
  it_productName : option string;
  it_meterName : option string;
  it_unitPrice : option Q;
  it_reservationTerm : option string
}.

Definition productName (p : price_item) : string := default EmptyString (it_productName p).
Definition meterName (p : price_item) : string := default EmptyString (it_meterName p).
Definition reservationTerm (p : price_item) : string :=
  default EmptyString (it_reservationTerm p).
Definition unitPrice (p : price_item) : Q := default 0%Q (it_unitPrice p).

(** [p.get("type") == t] *)
Definition has_type (t : string) (p : price_item) : bool :=
  match it_type p with
  | Some s => String.eqb s t
  | None => false
  end.

(** A row of the spreadsheets.  The cost cell is a string, or [None]
    once pandas has replaced a blank by a missing value. *)
Record report_row := mk_row {
  row_service_category : string;
  row_service_type : string;
  row_vm_name : string;
  row_tags : string;
  row_region : string;
  row_os : string;
  row_os_name : string;
  row_sku : string;
  row_description : string;
  row_cost : option string
}.

Definition matches_os (item : price_item) (os_filter : string) : bool :=
  let name := lower (productName item) in
  let meter := lower (meterName item) in
  if contains "spot" meter || contains "low priority" meter then false
  else if String.eqb os_filter EmptyString then true
  else
    let os_filter := lower os_filter in
    if String.eqb os_filter "windows" then
      contains "windows" name || contains "windows" meter
    else if String.eqb os_filter "linux" then
      negb (contains "windows" name) && negb (contains "windows" meter)
    else false.

(** The first test of [matches_os], on the meter name alone. *)
Definition meter_mentions_spot (item : price_item) : bool :=
  let meter := lower (meterName item) in
  contains "spot" meter || contains "low priority" meter.

(** The same words looked for in the product name, which [matches_os]
    does not do. *)
Definition product_mentions_spot (item : price_item) : bool :=
  let name := lower (productName item) in
  contains "spot" name || contains "low priority" name.

Definition is_windows (os_type : string) : bool := String.eqb (lower os_type) "windows".
Definition is_linux (os_type : string) : bool := String.eqb (lower os_type) "linux".

(** The two spellings of [sanitized_sku]. *)
Definition sanitized_sku (os_type sku : string) : string :=
  if is_windows os_type
  then replace "_" "-" (lower (replace "Standard_" EmptyString sku))
  else replace "_" "-" (lower sku).

(** [f"{sanitized_sku}_{region.lower()}"] *)
Definition sanitized_sku_region (os_type sku region : string) : string :=
  sanitized_sku os_type sku +:+ "_" +:+ lower region.

(** The pay-as-you-go selection. *)
Definition payg_items (os_type : string) (prices : list price_item) : list price_item :=
  let payg := List.filter (fun p => has_type "Consumption" p && matches_os p os_type) prices in
  if is_linux os_type then take 1 (PySort.sort_asc unitPrice payg) else payg.

(** The test on "ahb" and "hybrid" of the Windows branch. *)
Definition license_marked (p : price_item) : bool :=
  let text := lower (productName p +:+ meterName p) in
  contains "ahb" text || contains "hybrid" text.

(** One iteration of the loop that fills [by_term]. *)
Definition by_term_step (by_term : list (string * price_item)) (p : price_item)
    : list (string * price_item) :=
  let term := reservationTerm p in
  match PyDict.get term by_term with
  | None => PyDict.set term p by_term
  | Some q =>
      if Qle_bool (unitPrice p) (unitPrice q) then by_term
      else PyDict.set term p by_term
  end.

(** The reservation selection, both branches. *)
Definition reservation_items (os_type : string) (prices : list price_item)
    : list price_item :=
  if is_windows os_type then
    let clear :=
      List.filter (fun p => has_type "Reservation" p && negb (license_marked p)) prices in
    let reservations :=
      match clear with
      | [] => List.filter (has_type "Reservation") prices
      | _ => clear
      end in
    PyDict.values (fold_left by_term_step reservations [])
  else
    List.filter (fun p => has_type "Reservation" p && matches_os p os_type) prices.

(** [round(price * 730, 2)] *)
Definition payg_monthly_cost (p : price_item) : Binary64.float :=
  Binary64.round2 (Binary64.mul (Binary64.of_Q (unitPrice p)) (Binary64.of_Q 730)).

Definition months (term : string) : Q := if contains "1" term then 12 else 36.

(** [round(total_price / months, 2)] *)
Definition reservation_monthly_cost (p : price_item) : Binary64.float :=
  Binary64.round2
    (Binary64.div (Binary64.of_Q (unitPrice p))
       (Binary64.of_Q (months (reservationTerm p)))).

Definition payg_row (row : Matcher.input_row) (p : price_item) : report_row :=
  let sku := Matcher.in_sku row in
  let os_type := Matcher.in_os row in
  {| row_service_category := "Compute";
     row_service_type := "Virtual Machines";
     row_vm_name := Matcher.in_vm_name row;
     row_tags := Matcher.in_tags row;
     row_region := Matcher.in_region row;
     row_os := os_type;
     row_os_name := Matcher.in_os_name row;
     row_sku := sanitized_sku os_type sku;
     row_description :=
       "1 " +:+ meterName p +:+ " (" +:+ sku +:+ "), " +:+ os_type +:+ ", Pay-as-you-go";
     row_cost := Some (Binary64.format_money (payg_monthly_cost p)) |}.

Definition reservation_row (row : Matcher.input_row) (p : price_item) : report_row :=
  let sku := Matcher.in_sku row in
  let os_type := Matcher.in_os row in
  {| row_service_category := "Compute";
     row_service_type := "Virtual Machines";
     row_vm_name := Matcher.in_vm_name row;
     row_tags := Matcher.in_tags row;
     row_region := Matcher.in_region row;
     row_os := os_type;
     row_os_name := Matcher.in_os_name row;
     row_sku := sanitized_sku os_type sku;
     row_description :=
       "1 " +:+ meterName p +:+ " (" +:+ sku +:+ ") (" +:+ reservationTerm p +:+ "), "
       +:+ os_type +:+ " Reservation";
     row_cost := Some (Binary64.format_money (reservation_monthly_cost p)) |}.

(** The rows one input row adds when prices came back for it. *)
Definition rows_of_input (row : Matcher.input_row) (prices : list price_item)
    : list report_row :=
  let os_type := Matcher.in_os row in
  map (payg_row row) (payg_items os_type prices)
  ++ map (reservation_row row) (reservation_items os_type prices).

(** The three variables the loop of [build_azure_pricing] updates. *)
Record pricing_state := mk_pst {
  estimate_rows : list report_row;
  price_cache : gmap (string * string) (list price_item);
  unique_skus_regions : gset string
}.

(** The prices for a pair, through the cache. *)
Definition cached_prices (get_prices : string -> string -> list price_item)
    (cache : gmap (string * string) (list price_item)) (sku region : string)
    : list price_item * gmap (string * string) (list price_item) :=
  match cache !! (sku, region) with
  | Some prices => (prices, cache)
  | None => let prices := get_prices sku region in (prices, <[(sku, region) := prices]> cache)
  end.

(** One iteration of [for row in inputs].  [get_prices] stands for the
    HTTP query, a function of the SKU and the region. *)
Definition pricing_step (get_prices : string -> string -> list price_item)
    (st : pricing_state) (row : Matcher.input_row) : pricing_state :=
  let region := Matcher.in_region row in
  let sku := Matcher.in_sku row in
  let os_type := Matcher.in_os row in
  let keys :=
    if is_windows os_type
    then {[sanitized_sku_region os_type sku region]} ∪ unique_skus_regions st
    else unique_skus_regions st in
  let '(prices, cache) := cached_prices get_prices (price_cache st) sku region in
  match prices with
  | [] => {| estimate_rows := estimate_rows st; price_cache := cache;
             unique_skus_regions := keys |}
  | _ => {| estimate_rows := estimate_rows st ++ rows_of_input row prices;
            price_cache := cache; unique_skus_regions := keys |}
  end.

Definition build_azure_pricing (get_prices : string -> string -> list price_item)
    (inputs : list Matcher.input_row) : list report_row * gset string :=
  let st := foldl (pricing_step get_prices)
              {| estimate_rows := []; price_cache := ∅; unique_skus_regions := ∅ |}
              inputs in
  (estimate_rows st, unique_skus_regions st).

(** The cache only ever holds what the query returns. *)
Definition cache_ok (get_prices : string -> string -> list price_item)
    (cache : gmap (string * string) (list price_item)) : Prop :=
  ∀ sku region prices, cache !! (sku, region) = Some prices → prices = get_prices sku region.

(** The loop in closed form: the rows of every input row in turn, and
    the SKU-region keys of the Windows rows. *)
Definition all_rows (get_prices : string -> string -> list price_item)
    (inputs : list Matcher.input_row) : list report_row :=
  flat_map (fun row => rows_of_input row
                         (get_prices (Matcher.in_sku row) (Matcher.in_region row)))
    inputs.

Definition windows_keys (inputs : list Matcher.input_row) : gset string :=
  list_to_set
    (map (fun row => sanitized_sku_region (Matcher.in_os row) (Matcher.in_sku row)
                       (Matcher.in_region row))
       (List.filter (fun row => is_windows (Matcher.in_os row)) inputs)).

End Pricing.

(** ** Section 2 of the program: the three tables *)

Module Report.
Import PyStr PyNum PyExn.
Export Pricing.

(** [str(cell)] of a cost cell. *)
Definition cell_str (c : option string) : string :=
  match c with
  | Some s => s
  | None => "None"
  end.

(** [s.replace('$', '').replace(',', '')] *)
Definition clean_money (s : string) : string :=
  replace "," EmptyString (replace "$" EmptyString s).

(** [float(...)] with no handler around it. *)
Definition float_or_raise (s : string) : result Q :=
  match py_float s with
  | PNum q => Ok q
  | PSpecial | PForeign => NonFinite
  | PError => Raise ValueError
  end.

(** [float(...)] inside [try: ... except: ... = 0]. *)
Definition float_or_zero (s : string) : result Q :=
  match py_float s with
  | PNum q => Ok q
  | PSpecial | PForeign => NonFinite
  | PError => Ok 0%Q
  end.

(** The loop that fills [vm_pricing], a dict in insertion order. *)
Definition vm_pricing_step (acc : result (list (string * Q))) (row : report_row)
    : result (list (string * Q)) :=
  vm_pricing ← acc;
  if contains "Pay-as-you-go" (row_description row) then
    cost ← float_or_zero (clean_money (cell_str (row_cost row)));
    mret (PyDict.set (row_vm_name row) cost vm_pricing)
  else mret vm_pricing.

Definition build_vm_pricing (df : list report_row) : result (list (string * Q)) :=
  fold_left vm_pricing_step df (Ok []).

(** [sorted(vm_pricing.items(), key=lambda x: x[1], reverse=True)] *)
Definition sort_vms (vm_pricing : list (string * Q)) : list (string * Q) :=
  PySort.sort_desc snd vm_pricing.

Definition blank_row : report_row :=
  {| row_service_category := EmptyString; row_service_type := EmptyString;
     row_vm_name := EmptyString; row_tags := EmptyString; row_region := EmptyString;
     row_os := EmptyString; row_os_name := EmptyString; row_sku := EmptyString;
     row_description := EmptyString; row_cost := Some EmptyString |}.

(** [df[df['VM Name'] == vm_name]] *)
Definition rows_of_vm (df : list report_row) (vm_name : string) : list report_row :=
  List.filter (fun r => String.eqb (row_vm_name r) vm_name) df.

(** The list [sorted_rows]: per VM its rows, then a blank row. *)
Definition build_sorted_rows (df : list report_row) (sorted_vm_names : list string)
    : list report_row :=
  flat_map (fun vm_name => rows_of_vm df vm_name ++ [blank_row]) sorted_vm_names.

Definition set_cost (c : option string) (r : report_row) : report_row :=
  {| row_service_category := row_service_category r;
     row_service_type := row_service_type r;
     row_vm_name := row_vm_name r;
     row_tags := row_tags r;
     row_region := row_region r;
     row_os := row_os r;
     row_os_name := row_os_name r;
     row_sku := row_sku r;
     row_description := row_description r;
     row_cost := c |}.

(** [Series.replace('', None)] on the cost column: a blank cell becomes
    a missing value. *)
Definition blank_to_none (r : report_row) : report_row :=
  match row_cost r with
  | Some EmptyString => set_cost None r
  | _ => r
  end.

(** The condition under which a row enters [vm_pricing]. *)
Definition is_payg_row (r : report_row) : bool :=
  contains "Pay-as-you-go" (row_description r).

(** The blank row as it stands in the finished table. *)
Definition separator_row : report_row := blank_to_none blank_row.

(** The rows one VM occupies in the finished table. *)
Definition vm_group (df : list report_row) (vm_name : string) : list report_row :=
  map blank_to_none (rows_of_vm df vm_name) ++ [separator_row].

(** [pd.DataFrame(sorted_rows)] followed by the access to its cost
    column: a frame built from no row has no column. *)
Definition build_df_sorted (sorted_rows : list report_row) : result (list report_row) :=
  match sorted_rows with
  | [] => Raise KeyError
  | _ => Ok (map blank_to_none sorted_rows)
  end.

(** The lambda behind [cost_numeric].  [skip_totals] is the extra test
    on the service category that the second use adds. *)
Definition cost_numeric (skip_totals : bool) (r : report_row) : result Q :=
  match row_cost r with
  | None => Ok 0%Q
  | Some c =>
      if String.eqb c EmptyString then Ok 0%Q
      else if skip_totals && contains "Total" (row_service_category r) then Ok 0%Q
      else float_or_raise (clean_money c)
  end.

Definition Qsum (l : list Q) : Q := fold_left Qplus l 0%Q.

(** [frame[mask]['cost_numeric'].sum()] over the rows paired with their
    numeric cost. *)
Definition sum_where (mask : report_row -> bool) (rows : list (report_row * Q)) : Q :=
  Qsum (map snd (List.filter (fun rq => mask rq.1) rows)).

Definition mentions (pat : string) (r : report_row) : bool :=
  icontains pat (row_description r).

Definition label_row (category description cost : string) : report_row :=
  {| row_service_category := category; row_service_type := EmptyString;
     row_vm_name := EmptyString; row_tags := EmptyString; row_region := EmptyString;
     row_os := EmptyString; row_os_name := EmptyString; row_sku := EmptyString;
     row_description := description; row_cost := Some cost |}.

Definition totals_rows (total_payg total_1yr total_3yr : Q) : list report_row :=
  [ label_row "Total" "Total Monthly Pay-as-you-go" (format_money total_payg);
    label_row EmptyString "Total 1 Year Reservations (Billed monthly)"
      (format_money total_1yr);
    label_row EmptyString "Total 3 Year Reservations (Billed monthly)"
      (format_money total_3yr) ].

(** The as-quoted table [df_final]. *)
Definition build_df_final (df : list report_row) (sorted_vm_names : list string)
    : result (list report_row) :=
  df_sorted ← build_df_sorted (build_sorted_rows df sorted_vm_names);
  costs ← for_each (cost_numeric false) df_sorted;
  let numeric := zip df_sorted costs in
  let total_payg := sum_where (mentions "Pay-as-you-go") numeric in
  let total_1yr := sum_where (mentions "1 Year") numeric in
  let total_3yr := sum_where (mentions "3 Years") numeric in
  mret (df_sorted ++ totals_rows total_payg total_1yr total_3yr).

(** [f"${cost}" if not str(cost).startswith('$') else str(cost)] *)
Definition dollar (cost : string) : string :=
  if startswith "$" cost then cost else "$" +:+ cost.

(** One iteration of the loop that writes the secondary prices into
    [df_savings]. *)
Definition override_row (windows_pricing_data : gmap string (gmap string string))
    (r : report_row) : report_row :=
  let sku := lower (row_sku r) in
  let region := lower (row_region r) in
  let os := lower (row_os r) in
  if String.eqb sku EmptyString || String.eqb region EmptyString
     || String.eqb os EmptyString || negb (String.eqb os "windows")
  then r
  else
    match windows_pricing_data !! (sku +:+ "_" +:+ region) with
    | None => r
    | Some pricing_info =>
        let description := row_description r in
        let put (label : string) :=
          match pricing_info !! label with
          | Some cost => set_cost (Some (dollar cost)) r
          | None => r
          end in
        if contains "On Demand" description || contains "Pay-as-you-go" description
        then put "On Demand"
        else if contains "1 Year" description then put "1-Year Reserved"
        else if contains "3 Years" description then put "3-Year Reserved"
        else r
    end.

(** [frame.loc[frame['Description'] == label, cost column] = value] *)
Definition set_where (label value : string) (rows : list report_row) : list report_row :=
  map (fun r => if String.eqb (row_description r) label then set_cost (Some value) r else r)
    rows.

(** The numbers the reconciled table reports. *)
Record savings_totals := mk_totals {
  total_payg_savings : Q;
  total_1yr_savings : Q;
  total_3yr_savings : Q
}.

Definition annual_payg (t : savings_totals) : Q := total_payg_savings t * 12.
Definition annual_1yr (t : savings_totals) : Q := total_1yr_savings t * 12.
Definition annual_3yr (t : savings_totals) : Q := total_3yr_savings t * 12.
Definition savings_1yr (t : savings_totals) : Q := annual_payg t - annual_1yr t.
Definition savings_3yr (t : savings_totals) : Q := annual_payg t - annual_3yr t.
Definition total_36_months (t : savings_totals) : Q := total_payg_savings t * 36.
Definition total_3yr_cost (t : savings_totals) : Q := total_3yr_savings t * 36.

Definition additional_rows (t : savings_totals) : list report_row :=
  [ blank_row;
    label_row EmptyString "Total Yearly Pay-as-you-go" (format_money (annual_payg t));
    label_row EmptyString "Total 1 Year Reservations (Annual cost)"
      (format_money (annual_1yr t));
    label_row EmptyString "Annual Savings (1 Year Reservations)"
      (format_money (savings_1yr t));
    blank_row;
    label_row EmptyString "Total 36 Months Pay-as-you-go" (format_money (total_36_months t));
    label_row EmptyString "Total 3 Year Reservations (3 Year cost)"
      (format_money (total_3yr_cost t));
    label_row EmptyString "Total 3 Year Reservations (annual cost)"
      (format_money (annual_3yr t));
    blank_row;
    label_row EmptyString "3 Year Reservations (Annual Savings)"
      (format_money (savings_3yr t)) ].

(** The recomputed monthly totals of the reconciled table. *)
Definition recompute_totals (overridden : list report_row) : result savings_totals :=
  costs ← for_each (cost_numeric true) overridden;
  let numeric := zip overridden costs in
  mret {| total_payg_savings := sum_where (mentions "Pay-as-you-go") numeric;
          total_1yr_savings :=
            sum_where (fun r => mentions "1 Year" r && negb (mentions "Total" r)) numeric;
          total_3yr_savings :=
            sum_where (fun r => mentions "3 Years" r && negb (mentions "Total" r)) numeric |}.

(** The reconciled table [df_savings]. *)
Definition build_df_savings (windows_pricing_data : gmap string (gmap string string))
    (df_final : list report_row) : result (list report_row) :=
  let overridden := map (override_row windows_pricing_data) df_final in
  t ← recompute_totals overridden;
  let updated :=
    set_where "Total 3 Year Reservations (Billed monthly)" (format_money (total_3yr_savings t))
      (set_where "Total 1 Year Reservations (Billed monthly)"
         (format_money (total_1yr_savings t))
         (set_where "Total Monthly Pay-as-you-go" (format_money (total_payg_savings t))
            overridden)) in
  mret (updated ++ additional_rows t).

(** The compact table [df_ranked]. *)
Definition build_df_ranked (sorted_vms : list (string * Q)) : list (string * string) :=
  map (fun vm => (vm.1, format_money vm.2)) sorted_vms.

Definition build_final_dataframes (estimate_rows : list report_row)
    (windows_pricing_data : gmap string (gmap string string))
    : result (list report_row * list report_row * list (string * string)) :=
  vm_pricing ← build_vm_pricing estimate_rows;
  let sorted_vms := sort_vms vm_pricing in
  let sorted_vm_names := map fst sorted_vms in
  df_final ← build_df_final estimate_rows sorted_vm_names;
  df_savings ← build_df_savings windows_pricing_data df_final;
  mret (df_final, df_savings, build_df_ranked sorted_vms).

End Report.

(** ** Concrete runs *)

Module Examples.
Import Matcher Pricing Report PyExn.
Local Open Scope Q_scope.

(** Two running VMs of one size in one region. *)
Definition vm_a : vm_entry :=
  mk_vm "vm-a" "Standard_D2s_v3" "Windows" "Windows Server 2019" "eastus" "Billing".
Definition vm_b : vm_entry :=
  mk_vm "vm-b" "Standard_D2s_v3" "Linux" "Ubuntu 22.04" "eastus" "Unknown".

Definition pool_ab : gmap (string * string) (list vm_entry) :=
  {[ ("Standard_D2s_v3", "eastus") := [vm_a; vm_b] ]}.

(** An eligible Advisor row whose Quantity cell holds 0. *)
Definition adv_zero : advisor_row :=
  mk_adv "Cost" "High" (Some "Consider virtual machine reserved instance to save")
    "Standard_D2s_v3" "eastus" 0 (PyNum.Fin 250) "Production".

(** Three eligible rows for one VM each; the Annual Savings cell of the
    second is empty. *)
Definition adv_15 : advisor_row :=
  mk_adv "Cost" "High" (Some "Consider virtual machine reserved instance to save")
    "Standard_D2s_v3" "eastus" 1 (PyNum.Fin 15) "Production".
Definition adv_nan : advisor_row :=
  mk_adv "Cost" "High" (Some "Consider virtual machine reserved instance to save")
    "Standard_D2s_v3" "eastus" 1 PyNum.NaN "Production".
Definition adv_20 : advisor_row :=
  mk_adv "Cost" "High" (Some "Consider virtual machine reserved instance to save")
    "Standard_D2s_v3" "eastus" 1 (PyNum.Fin 20) "Production".

Definition vm_c : vm_entry :=
  mk_vm "vm-c" "Standard_D2s_v3" "Linux" "Ubuntu 22.04" "eastus" "Unknown".

Definition pool_abc : gmap (string * string) (list vm_entry) :=
  {[ ("Standard_D2s_v3", "eastus") := [vm_a; vm_b; vm_c] ]}.

(** Rows of [inputs.json]. *)
Definition input_win : input_row :=
  mk_input "eastus" "Standard_D2s_v3" "Windows" "Windows Server 2019" "vm-a" "Billing".
Definition input_linux : input_row :=
  mk_input "eastus" "Standard_D2s_v3" "Linux" "Ubuntu 22.04" "vm-b" "Unknown".
Definition input_win_e4 : input_row :=
  mk_input "eastus" "Standard_E4s_v3" "Windows" "Windows Server 2022" "vm-c" "Unknown".

(** Items of the kind the Retail Prices query returns. *)
Definition payg_windows : price_item :=
  mk_item (Some "Consumption") (Some "Virtual Machines DSv3 Series Windows")
    (Some "D2s v3") (Some 0.188) None.
Definition payg_linux : price_item :=
  mk_item (Some "Consumption") (Some "Virtual Machines DSv3 Series")
    (Some "D2s v3") (Some 0.096) None.
Definition payg_spot : price_item :=
  mk_item (Some "Consumption") (Some "Virtual Machines DSv3 Series")
    (Some "D2s v3 Spot") (Some 0.019) None.
Definition reservation_1y : price_item :=
  mk_item (Some "Reservation") (Some "Virtual Machines DSv3 Series")
    (Some "D2s v3") (Some 501) (Some "1 Year").
Definition reservation_3y : price_item :=
  mk_item (Some "Reservation") (Some "Virtual Machines DSv3 Series")
    (Some "D2s v3") (Some 968) (Some "3 Years").

(** An item with a given unit price and reservation term. *)
Definition priced (unit_price : Q) (term : option string) : price_item :=
  mk_item None (Some "Virtual Machines DSv3 Series") (Some "D2s v3") (Some unit_price) term.

(** An item whose product name, not its meter name, says "Spot". *)
Definition payg_product_spot : price_item :=
  mk_item (Some "Consumption") (Some "Virtual Machines DSv3 Series Spot")
    (Some "D2s v3") (Some 0.019) None.

(** A reservation item whose meter name says "Spot". *)
Definition reservation_spot : price_item :=
  mk_item (Some "Reservation") (Some "Virtual Machines DSv3 Series")
    (Some "D2s v3 Spot") (Some 120) (Some "1 Year").

(** A price query: the D2s v3 pair has all kinds of items, the E4s v3
    pair has no Windows consumption item. *)
Definition get_prices (sku region : string) : list price_item :=
  if String.eqb sku "Standard_D2s_v3" && String.eqb region "eastus" then
    [payg_windows; payg_linux; payg_spot; reservation_1y; reservation_3y]
  else if String.eqb sku "Standard_E4s_v3" && String.eqb region "eastus" then
    [payg_linux; reservation_1y; reservation_3y]
  else [].

(** The secondary source with a usable price, and with a word where a
    price should be. *)
Definition secondary_prices : gmap string (gmap string string) :=
  {[ "d2s-v3_eastus" := {[ "On Demand" := "$140.16"; "1-Year Reserved" := "95.50" ]} ]}.
Definition secondary_unavailable : gmap string (gmap string string) :=
  {[ "d2s-v3_eastus" := {[ "On Demand" := "Unavailable" ]} ]}.

(** The VM names down the first table, when there is one. *)
Definition final_vm_names
    (out : result (list report_row * list report_row * list (string * string)))
    : option (list string) :=
  match out with
  | Ok (df_final, _, _) => Some (map row_vm_name df_final)
  | _ => None
  end.

(** The annual and savings rows at the end of the second table. *)
Definition closing_costs
    (out : result (list report_row * list report_row * list (string * string)))
    : option (list (string * option string)) :=
  match out with
  | Ok (_, df_savings, _) =>
      Some (map (fun r => (row_description r, row_cost r))
              (List.filter
                 (fun r => PyStr.icontains "annual" (row_description r)
                           || PyStr.icontains "yearly" (row_description r))
                 df_savings))
  | _ => None
  end.

End Examples.

(** ** Text of numbers *)

Module NumText.

(** [s] with every [c] taken out: what [s.replace(c, '')] leaves. *)
Fixpoint remove_char (c : ascii) (s : string) : string :=
  match s with
  | EmptyString => EmptyString
  | String a s' =>
      if ascii_dec c a then remove_char c s' else String a (remove_char c s')
  end.

(** Every character of [s] passes the test [p]. *)
Fixpoint all_chars (p : ascii -> bool) (s : string) : bool :=
  match s with
  | EmptyString => true
  | String a s' => p a && all_chars p s'
  end.

(** The digits of a decimal numeral, most significant first. *)
Fixpoint uint_digits (d : Decimal.uint) : list N :=
  match d with
  | Decimal.Nil => []
  | Decimal.D0 l => 0%N :: uint_digits l
  | Decimal.D1 l => 1%N :: uint_digits l
  | Decimal.D2 l => 2%N :: uint_digits l
  | Decimal.D3 l => 3%N :: uint_digits l
  | Decimal.D4 l => 4%N :: uint_digits l
  | Decimal.D5 l => 5%N :: uint_digits l
  | Decimal.D6 l => 6%N :: uint_digits l
  | Decimal.D7 l => 7%N :: uint_digits l
  | Decimal.D8 l => 8%N :: uint_digits l
  | Decimal.D9 l => 9%N :: uint_digits l
  end.

(** A character that ends a run of digits. *)
Definition ends_digits (s : string) : Prop := PyNum.digits_tail s = ([], s).

End NumText.

(** ** Cells that can be read *)

Module Readable.
Import PyStr PyNum PyExn Report.

(** [float] takes the cleaned text: it reads a number, an infinity or a
    NaN from it and does not raise. *)
Definition float_accepts (s : string) : Prop :=
  match py_float (clean_money s) with
  | PNum _ | PSpecial => True
  | PForeign | PError => False
  end.

(** A cost cell the totals can take in: missing, blank, or a text that
    [float] takes. *)
Definition cost_readable (r : report_row) : Prop :=
  match row_cost r with
  | None => True
  | Some s => s = EmptyString ∨ float_accepts s
  end.

(** [float] takes every price string of the secondary source once it
    carries its currency sign. *)
Definition secondary_readable (windows_pricing_data : gmap string (gmap string string))
    : Prop :=
  ∀ key pricing_info label cost,
    windows_pricing_data !! key = Some pricing_info →
    pricing_info !! label = Some cost →
    float_accepts (dollar cost).

(** No exception leaves the call: it returns, or it goes on with an
    amount that is not finite. *)
Definition goes_through {A : Type} (m : result A) : Prop :=
  match m with
  | Raise _ => False
  | Ok _ | NonFinite => True
  end.

(** The descriptions of the three monthly total rows. *)
Definition total_labels : list string :=
  [ "Total Monthly Pay-as-you-go";
    "Total 1 Year Reservations (Billed monthly)";
    "Total 3 Year Reservations (Billed monthly)" ].

End Readable.

(** ** Names for parts of the classifier *)

Module Classifier.
Import PyStr PyNum Pricing.




(** The first pass of [generate_pricing_spreadsheets] over the inputs,
    which collects the Windows SKU-region pairs to scrape. *)
Definition phase1_step (acc : gset string) (row : Matcher.input_row) : gset string :=
  if String.eqb (lower (Matcher.in_os row)) "windows" then
    let sku := replace "_" "-" (lower (replace "Standard_" EmptyString (Matcher.in_sku row))) in
    let region := lower (Matcher.in_region row) in
    {[ sku +:+ "_" +:+ region ]} ∪ acc
  else acc.

Definition phase1_keys (inputs : list Matcher.input_row) : gset string :=
  foldl phase1_step ∅ inputs.

End Classifier.

(** ** Names for parts of the matcher *)

Module MatcherSpec.
Import Matcher.


(** The recommendations in the order the loops made them. *)
Definition claimed (advisor_df : list advisor_row)
    (vm_pool : gmap (string * string) (list vm_entry)) : list recommendation :=
  (build_recommendations vm_pool (List.filter eligible advisor_df)).1.

End MatcherSpec.

(** ** Section 1 of the program: the pool of running VMs *)

Module Inventory.
Import PyStr Matcher.

(** One row of the "Virtual Machines" sheet: one VM and one of its tags.
    A cell pandas reads as NaN is [None]; the four descriptive cells are
    taken as filled. *)
Record vm_row := mk_vm_row {
  vr_name : option string;
  vr_size : string;
  vr_os_type : string;
  vr_os_name : string;
  vr_location : string;
  vr_power_state : option string;
  vr_tag_name : option string;
  vr_tag_value : option string
}.

(** Which of the optional columns the sheet has. *)
Record vm_columns := mk_columns {
  has_vm_size : bool;
  has_os_type : bool;
  has_os_name : bool;
  has_location : bool;
  has_power_state : bool;
  has_tag_name : bool;
  has_tag_value : bool
}.

(** [str(cell)] *)
Definition cell_text (c : option string) : string := default "nan" c.

(** [Power State].astype(str).str.strip().eq("VM running") *)
Definition is_running (r : vm_row) : bool :=
  String.eqb (strip (cell_text (vr_power_state r))) "VM running".

(** The filter on running VMs; without the column every row stays. *)
Definition running_rows (cols : vm_columns) (vm_df : list vm_row) : list vm_row :=
  if has_power_state cols then List.filter is_running vm_df else vm_df.

(** The group keys of [groupby("VM Name")]: the names that occur, each
    once, in ascending order; rows without a name belong to no group. *)
Fixpoint insert_name (n : string) (l : list string) : list string :=
  match l with
  | [] => [n]
  | x :: l' => if String.leb n x then n :: l else x :: insert_name n l'
  end.

Definition sort_names (l : list string) : list string := foldr insert_name [] l.

Definition group_names (vm_df : list vm_row) : list string :=
  sort_names (remove_dups (omap vr_name vm_df)).

Definition has_name (vm_name : string) (r : vm_row) : bool :=
  match vr_name r with
  | Some n => String.eqb n vm_name
  | None => false
  end.

(** The rows of one group, in sheet order. *)
Definition group_of (vm_df : list vm_row) (vm_name : string) : list vm_row :=
  List.filter (has_name vm_name) vm_df.

Definition tag_is (names : list string) (r : vm_row) : bool :=
  match vr_tag_name r with
  | Some n => existsb (String.eqb n) names
  | None => false
  end.

(** The tag of a group: ApplicationName first, then CostCenter or
    Cost Center, else "Unknown". *)
Definition tag_of (cols : vm_columns) (group : list vm_row) : string :=
  if has_tag_name cols && has_tag_value cols then
    match List.filter (tag_is ["ApplicationName"]) group with
    | app_row :: _ => strip (cell_text (vr_tag_value app_row))
    | [] =>
        match List.filter (tag_is ["CostCenter"; "Cost Center"]) group with
        | cost_row :: _ => strip (cell_text (vr_tag_value cost_row))
        | [] => "Unknown"
        end
    end
  else "Unknown".

(** [group[col].iloc[0] if col in group else "Unknown"] *)
Definition first_cell (present : bool) (cell : vm_row -> string) (group : list vm_row)
    : string :=
  if present then
    match group with
    | r :: _ => cell r
    | [] => "Unknown"
    end
  else "Unknown".

(** The dict [vm_entry] of one group. *)
Definition entry_of (cols : vm_columns) (vm_name : string) (group : list vm_row) : vm_entry :=
  {| vm_name := vm_name;
     vm_size := first_cell (has_vm_size cols) vr_size group;
     vm_os := first_cell (has_os_type cols) vr_os_type group;
     vm_os_name := first_cell (has_os_name cols) vr_os_name group;
     vm_region := first_cell (has_location cols) vr_location group;
     vm_tags := tag_of cols group |}.

(** [(str(vm_size).strip(), str(location).lower().strip())] *)
Definition entry_key (e : vm_entry) : string * string :=
  (strip (vm_size e), strip (lower (vm_region e))).

(** [vm_pool.setdefault(key, []).append(vm_entry)] *)
Definition add_entry (vm_pool : gmap (string * string) (list vm_entry)) (e : vm_entry)
    : gmap (string * string) (list vm_entry) :=
  <[entry_key e := default [] (vm_pool !! entry_key e) ++ [e]]> vm_pool.

(** The entries in the order the loop over the groups makes them. *)
Definition vm_entries (cols : vm_columns) (vm_df : list vm_row) : list vm_entry :=
  let running := running_rows cols vm_df in
  map (fun n => entry_of cols n (group_of running n)) (group_names running).

Definition build_vm_pool (cols : vm_columns) (vm_df : list vm_row)
    : gmap (string * string) (list vm_entry) :=
  foldl add_entry ∅ (vm_entries cols vm_df).

(** The pool list the matcher reads under a key. *)
Definition pool_at (vm_pool : gmap (string * string) (list vm_entry))
    (key : string * string) : list vm_entry :=
  default [] (vm_pool !! key).

(** The order of two names that ascend. *)
Definition name_le (a b : string) : Prop := String.leb a b = true.

(** A sheet with all columns. *)
Definition all_columns : vm_columns := mk_columns true true true true true true true.

(** Three rows: a stopped VM, and a running VM with two tags, the cost
    centre first. *)
Definition sheet : list vm_row :=
  [ mk_vm_row (Some "vm-z") "Standard_D2s_v3" "Linux" "Ubuntu 22.04" "eastus"
      (Some "VM deallocated") (Some "ApplicationName") (Some "Shop");
    mk_vm_row (Some "vm-b") "Standard_D2s_v3" "Linux" "Ubuntu 22.04" "EastUS"
      (Some "VM running") (Some "CostCenter") (Some "4711");
    mk_vm_row (Some "vm-b") "Standard_D2s_v3" "Linux" "Ubuntu 22.04" "EastUS"
      (Some "VM running") (Some "ApplicationName") (Some " Billing ");
    mk_vm_row (Some "vm-a") " Standard_D2s_v3" "Windows" "Windows Server 2019" "eastus"
      (Some "VM running") None None ].

End Inventory.

#[local] Set Warnings "-clear-no-such-hyp".

(** * Properties *)

(** ** The conventions at work *)

Section Conventions.
Import PyStr PyNum.

(** [str.strip] removes a no-break space, [float] does not strip the
    unit separator and reads an infinity from a number beyond its
    range. *)
Example white_space_and_range :
  strip ("Standard_D2s_v3" +:+ String (ascii_of_nat 194) (String (ascii_of_nat 160) " "))
  = "Standard_D2s_v3"
  ∧ py_float (" 70.08" +:+ String (ascii_of_nat 31) EmptyString) = PError
  ∧ py_float (" 70.08" +:+ String (ascii_of_nat 194) (String (ascii_of_nat 160) EmptyString))
    = PNum 70.08
  ∧ py_float "1e400" = PSpecial
  ∧ py_float "-inf" = PSpecial.
Proof. by vm_compute. Qed.
End Conventions.

(** ** Lists and the stable sort *)

Section ListFacts.
Context {A : Type}.

Lemma filter_sublist (f : A -> bool) (l : list A) : List.filter f l `sublist_of` l.
Proof.
  induction l as [|a l IH]; simpl; [constructor|].
  destruct (f a); by constructor.
Qed.

Lemma elem_of_bool_filter (f : A -> bool) (l : list A) (x : A) :
  x ∈ List.filter f l ↔ x ∈ l ∧ f x = true.
Proof. rewrite !list_elem_of_In. apply filter_In. Qed.

Lemma filter_length_split (f g : A -> bool) (l : list A) :
  (∀ x, f x = true → g x = true) →
  length (List.filter g l) =
  (length (List.filter f l) + length (List.filter (fun x => g x && negb (f x)) l))%nat.
Proof.
  intros Hfg. induction l as [|a l IH]; simpl; [done|].
  destruct (f a) eqn:Hf.
  - rewrite (Hfg a Hf). simpl. lia.
  - destruct (g a); simpl; lia.
Qed.

Lemma StronglySorted_sublist (R : A -> A -> Prop) (l k : list A) :
  l `sublist_of` k → StronglySorted R k → StronglySorted R l.
Proof.
  intros Hs Hk. revert l Hs.
  induction Hk as [|a k Hk IH Ha]; intros l Hs.
  - apply sublist_nil_r in Hs. subst. constructor.
  - inversion Hs as [|x l1 l2 Hs'|x l1 l2 Hs']; subst.
    + constructor; [by apply IH|].
      rewrite Forall_forall in Ha |- *. intros y Hy. apply Ha.
      by eapply elem_of_sublist.
    + by apply IH.
Qed.


Lemma NoDup_fmap_elem_inj {B : Type} (f : A -> B) (l : list A) (x y : A) :
  NoDup (f <$> l) → x ∈ l → y ∈ l → f x = f y → x = y.
Proof.
  induction l as [|a l IH]; simpl; intros Hnd Hx Hy Hxy.
  - by apply elem_of_nil in Hx.
  - apply NoDup_cons in Hnd as [Hna Hnd].
    apply elem_of_cons in Hx as [->|Hx]; apply elem_of_cons in Hy as [->|Hy].
    + done.
    + exfalso. apply Hna. rewrite Hxy. by apply list_elem_of_fmap_2.
    + exfalso. apply Hna. rewrite <- Hxy. by apply list_elem_of_fmap_2.
    + by apply IH.
Qed.
End ListFacts.

Section SortFacts.
Context {A : Type} (key : A -> Q).

Import PySort.

Lemma insert_desc_perm (r : A) (l : list A) : PySort.insert_desc key r l ≡ₚ r :: l.
Proof.
  induction l as [|x l IH]; simpl; [done|].
  destruct (Qle_bool (key x) (key r)); [done|].
  rewrite IH. apply perm_swap.
Qed.

Lemma sort_desc_perm (l : list A) : PySort.sort_desc key l ≡ₚ l.
Proof.
  induction l as [|a l IH]; simpl; [done|].
  unfold PySort.sort_desc in *. simpl. rewrite insert_desc_perm. by rewrite IH.
Qed.

Lemma insert_desc_sorted (r : A) (l : list A) :
  StronglySorted (descending key) l → StronglySorted (descending key) (PySort.insert_desc key r l).
Proof.
  induction 1 as [|x l Hl IH Hx]; simpl.
  - repeat constructor.
  - destruct (Qle_bool (key x) (key r)) eqn:Hle.
    + apply Qle_bool_iff in Hle.
      constructor; [by constructor|].
      constructor; [done|].
      eapply Forall_impl; [exact Hx|].
      unfold descending. intros y Hy. by eapply Qle_trans.
    + constructor; [done|].
      rewrite insert_desc_perm. constructor; [|done].
      unfold descending. apply Qlt_le_weak, Qnot_le_lt.
      intros Hc. apply Qle_bool_iff in Hc. congruence.
Qed.

Lemma sort_desc_sorted (l : list A) : StronglySorted (descending key) (PySort.sort_desc key l).
Proof.
  induction l as [|a l IH]; [constructor|].
  unfold PySort.sort_desc in *. simpl. by apply insert_desc_sorted.
Qed.

(** Stability: the entries that share a key keep their order. *)
Lemma insert_desc_stable (q : Q) (r : A) (l : list A) :
  StronglySorted (descending key) l →
  List.filter (fun a => Qeq_bool (key a) q) (PySort.insert_desc key r l)
  = List.filter (fun a => Qeq_bool (key a) q) (r :: l).
Proof.
  induction 1 as [|x l Hl IH Hx]; [done|].
  cbn [PySort.insert_desc].
  destruct (Qle_bool (key x) (key r)) eqn:Hle; [done|].
  cbn [List.filter] in *. rewrite IH.
  destruct (Qeq_bool (key r) q) eqn:Hr; [|done].
  destruct (Qeq_bool (key x) q) eqn:Hxq; [|done].
  apply Qeq_bool_iff in Hr, Hxq.
  assert (Qle_bool (key x) (key r) = true); [|congruence].
  apply Qle_bool_iff. rewrite Hr, Hxq. apply Qle_refl.
Qed.

Lemma sort_desc_stable (q : Q) (l : list A) :
  List.filter (fun a => Qeq_bool (key a) q) (PySort.sort_desc key l)
  = List.filter (fun a => Qeq_bool (key a) q) l.
Proof.
  induction l as [|a l IH]; [done|].
  unfold PySort.sort_desc in *. cbn [foldr].
  rewrite insert_desc_stable by apply sort_desc_sorted.
  cbn [List.filter]. by rewrite IH.
Qed.
End SortFacts.

(** ** Floats that may be infinite or NaN *)

Section FloatOrder.
Import PyNum.




Lemma fle_trans (x y z : pyfloat) : fle x y = true → fle y z = true → fle x z = true.
Proof.
  destruct x, y, z; try done. cbn. rewrite !Qle_bool_iff. apply Qle_trans.
Qed.


Lemma flt_spec (x y : pyfloat) : flt x y = true ↔ fle x y = true ∧ fle y x = false.
Proof. unfold flt. by rewrite andb_true_iff, negb_true_iff. Qed.

Lemma flt_fle_trans (x y z : pyfloat) :
  flt x y = true → fle y z = true → flt x z = true.
Proof.
  rewrite !flt_spec. intros [Hxy Hyx] Hyz. split; [by eapply fle_trans|].
  destruct (fle z x) eqn:Hzx; [|done].
  rewrite <- Hyx. symmetry. by eapply fle_trans.
Qed.

Lemma fsame_refl (x : pyfloat) : fsame x x = true.
Proof. destruct x; try done. cbn. apply Qeq_bool_iff, Qeq_refl. Qed.

Lemma fsame_fle (x y z : pyfloat) : fsame x y = true → fle z x = fle z y.
Proof.
  destruct x, y; try done. destruct z; try done. cbn.
  intros Heq%Qeq_bool_iff.
  destruct (Qle_bool q1 q) eqn:H1, (Qle_bool q1 q0) eqn:H2; try done.
  - apply Qle_bool_iff in H1. rewrite Heq in H1. apply Qle_bool_iff in H1. congruence.
  - apply Qle_bool_iff in H2. rewrite <- Heq in H2. apply Qle_bool_iff in H2. congruence.
Qed.
End FloatOrder.

Section FloatSortFacts.
Context {A : Type} (key : A -> PyNum.pyfloat).

Import PyNum PySort.

Lemma insert_desc_float_perm (r : A) (l : list A) : insert_desc_float key r l ≡ₚ r :: l.
Proof.
  induction l as [|x l IH]; simpl; [done|].
  destruct (fle (key x) (key r)); [done|].
  rewrite IH. apply perm_swap.
Qed.

Lemma sort_desc_float_perm (l : list A) : sort_desc_float key l ≡ₚ l.
Proof.
  induction l as [|a l IH]; simpl; [done|].
  unfold sort_desc_float in *. simpl. rewrite insert_desc_float_perm. by rewrite IH.
Qed.

Lemma arrange_perm (choices : list nat) (l : list A) : arrange choices l ≡ₚ l.
Proof.
  revert choices. induction l as [|x l IH]; intros choices; [done|].
  cbn [arrange]. rewrite <- Permutation_middle, take_drop. by rewrite IH.
Qed.

(** Every order of the elements is the outcome of some choices. *)
Lemma arrange_complete (l l' : list A) :
  l ≡ₚ l' → ∃ choices, arrange choices l = l'.
Proof.
  revert l'. induction l as [|x l IH]; intros l' Hperm.
  - apply Permutation_nil in Hperm as ->. by exists [].
  - assert (x ∈ l') as Hx by (rewrite <- Hperm; left).
    apply list_elem_of_split in Hx as (l1 & l2 & ->).
    apply Permutation_cons_app_inv in Hperm.
    destruct (IH _ Hperm) as [choices Hc].
    exists (length l1 :: choices). cbn [arrange hd tl]. rewrite Hc.
    by rewrite take_app_length, drop_app_length.
Qed.

(** Whatever the keys, [list.sort] leaves the elements it was given. *)
Lemma list_sort_desc_perm (arrangement : list nat) (l : list A) :
  list_sort_desc key arrangement l ≡ₚ l.
Proof.
  unfold list_sort_desc. destruct (negb _); [apply sort_desc_float_perm|].
  destruct (no_ascent key l); [done|apply arrange_perm].
Qed.






End FloatSortFacts.

(** ** The matcher *)

Section MatcherFacts.
Import PyNum PyExn Matcher PySort.

Lemma claims_ok_init : claims_ok ([], ∅).
Proof. split; [constructor|]. intros n Hn. by apply elem_of_nil in Hn. Qed.

Lemma claim_pool_ok adv quantity pool selected st :
  claims_ok st → claims_ok (claim_pool adv quantity pool selected st).
Proof.
  revert selected st.
  induction pool as [|vm rest IH]; intros selected st Hst; simpl; [done|].
  destruct (decide (vm_name vm ∈ st.2)) as [Hin|Hnew]; [by apply IH|].
  assert (claims_ok (st.1 ++ [make_rec adv vm], {[vm_name vm]} ∪ st.2)) as Hst'.
  { destruct Hst as [Hnd Hsub]. split; simpl.
    - rewrite fmap_app. apply NoDup_app. split_and!; [done| |apply NoDup_singleton].
      intros n Hn Hn'. apply list_elem_of_singleton in Hn'. simpl in Hn'. subst n.
      by apply Hnew, Hsub.
    - intros n. rewrite fmap_app, elem_of_app. simpl.
      rewrite list_elem_of_singleton. intros [Hn| ->]; [|set_solver].
      apply elem_of_union_r. by apply Hsub. }
  destruct (quantity <=? selected + 1)%Z; [done|by apply IH].
Qed.

Lemma build_recommendations_ok vm_pool advisor_filtered :
  claims_ok (build_recommendations vm_pool advisor_filtered).
Proof.
  unfold build_recommendations.
  generalize claims_ok_init. generalize (([], ∅) : match_state).
  induction advisor_filtered as [|adv l IH]; intros st Hst; simpl; [done|].
  apply IH. unfold match_row. by apply claim_pool_ok.
Qed.

Lemma rec_eqb_refl r : rec_eqb r r = true.
Proof. unfold rec_eqb. by rewrite !String.eqb_refl, fsame_refl. Qed.

Lemma rec_eqb_savings a b :
  rec_eqb a b = true → PyNum.fsame (rec_annual_savings a) (rec_annual_savings b) = true.
Proof. unfold rec_eqb. rewrite !andb_true_iff. tauto. Qed.

Lemma rec_in_elem r l : r ∈ l → rec_in r l = true.
Proof.
  intros Hr. apply existsb_exists. exists r. split; [by apply list_elem_of_In|].
  apply rec_eqb_refl.
Qed.

Lemma meets_threshold_above_one r : meets_threshold r = true → above_one r = true.
Proof.
  unfold meets_threshold, above_one, savings_threshold. intros H.
  eapply flt_fle_trans; [|exact H]. reflexivity.
Qed.

(** On the elements of the list itself, "not already selected" is the
    same as "below the threshold". *)
Lemma rec_in_threshold l r :
  r ∈ l → rec_in r (threshold_part l) = meets_threshold r.
Proof.
  intros Hr. destruct (meets_threshold r) eqn:Hm.
  - apply rec_in_elem. apply elem_of_bool_filter. done.
  - apply not_true_is_false. intros Hin.
    apply existsb_exists in Hin as (r' & Hr' & Heq).
    apply filter_In in Hr' as [_ Hm'].
    apply rec_eqb_savings in Heq.
    unfold meets_threshold in *.
    rewrite (fsame_fle _ _ _ Heq) in Hm. congruence.
Qed.

Lemma backfill_part_eq l :
  backfill_part l =
  if (length (threshold_part l) <? 20)%nat
  then take (20 - length (threshold_part l)) (List.filter remainder l)
  else [].
Proof.
  unfold backfill_part. destruct (_ <? _)%nat; [|done]. f_equal.
  apply filter_ext_in. intros r Hr. unfold remainder.
  rewrite rec_in_threshold; [done|by apply list_elem_of_In].
Qed.

Lemma backfill_sublist l : backfill_part l `sublist_of` l.
Proof.
  unfold backfill_part. destruct (_ <? _)%nat; [|apply sublist_nil_l].
  etransitivity; [apply sublist_take|apply filter_sublist].
Qed.

Lemma backfill_remainder l r : r ∈ backfill_part l → remainder r = true.
Proof.
  rewrite backfill_part_eq. destruct (_ <? _)%nat; [|by intros ?%elem_of_nil].
  intros Hr. eapply elem_of_sublist in Hr; [|apply sublist_take].
  by apply elem_of_bool_filter in Hr as [_ Hr].
Qed.



Lemma select_impact_NoDup l :
  NoDup (rec_vm_name <$> l) → NoDup (rec_vm_name <$> select_impact l).
Proof.
  intros Hnd. unfold select_impact. rewrite fmap_app. apply NoDup_app. split_and!.
  - eapply sublist_NoDup; [done|]. apply fmap_sublist, filter_sublist.
  - intros n Hn Hn'.
    apply list_elem_of_fmap in Hn as (r1 & -> & Hr1).
    apply list_elem_of_fmap in Hn' as (r2 & Heq & Hr2).
    pose proof (backfill_remainder _ _ Hr2) as Hrem.
    apply elem_of_bool_filter in Hr1 as [Hr1 Hm].
    eapply elem_of_sublist in Hr2; [|apply backfill_sublist].
    assert (r1 = r2) as -> by (by eapply NoDup_fmap_elem_inj).
    unfold remainder in Hrem. rewrite Hm in Hrem. by rewrite andb_false_r in Hrem.
  - eapply sublist_NoDup; [done|]. apply fmap_sublist, backfill_sublist.
Qed.

Lemma select_impact_length l :
  length (select_impact l) =
  Nat.max (length (List.filter meets_threshold l))
          (Nat.min 20 (length (List.filter above_one l))).
Proof.
  unfold select_impact. rewrite length_app, backfill_part_eq.
  unfold threshold_part.
  assert (length (List.filter above_one l) =
          (length (List.filter meets_threshold l)
           + length (List.filter remainder l))%nat) as Hsplit
    by apply (filter_length_split meets_threshold above_one l
                meets_threshold_above_one).
  destruct (_ <? _)%nat eqn:Hlt.
  - apply Nat.ltb_lt in Hlt. rewrite length_take.
    set (n := length (List.filter meets_threshold l)) in *.
    set (m := length (List.filter above_one l)) in *.
    set (k := length (List.filter remainder l)) in *.
    clearbody n m k. lia.
  - apply Nat.ltb_ge in Hlt. cbn [length]. lia.
Qed.




(** The run either stops in the Advisor filter or goes through. *)
Lemma advisor_filter_cases advisor_df :
  (advisor_filter advisor_df = Ok (List.filter eligible advisor_df)
   ∧ (advisor_df = [] ∨ no_text advisor_df = false))
  ∨ (advisor_filter advisor_df = Raise PyExn.AttributeError
     ∧ advisor_df ≠ [] ∧ no_text advisor_df = true).
Proof.
  unfold advisor_filter. destruct advisor_df as [|adv l]; [left; by split; [|left]|].
  destruct (no_text (adv :: l)) eqn:Hn; [right|left]; split_and!; try done. by right.
Qed.

Lemma generate_vm_recommendations_inv arrangement advisor_df vm_pool out :
  generate_vm_recommendations arrangement advisor_df vm_pool = PyExn.Ok out →
  out = recommend arrangement vm_pool (List.filter eligible advisor_df).
Proof.
  unfold generate_vm_recommendations.
  destruct (advisor_filter_cases advisor_df) as [[-> _]|[-> _]]; [|done].
  cbn. congruence.
Qed.
End MatcherFacts.

Section ClaimPool.
Import Matcher.

Lemma unclaimed_insert (n : string) (seen : gset string) (pool : list vm_entry) :
  n ∉ vm_name <$> pool → unclaimed ({[n]} ∪ seen) pool = unclaimed seen pool.
Proof.
  unfold unclaimed. induction pool as [|vm pool IH]; intros Hn; [done|].
  rewrite fmap_cons in Hn. apply not_elem_of_cons in Hn as [Hne Hn].
  rewrite !filter_cons, (IH Hn).
  destruct (decide (vm_name vm ∉ seen)) as [Hs|Hs].
  - rewrite decide_True; [done|]. set_solver.
  - rewrite decide_False; [done|]. set_solver.
Qed.

(** The inner loop in closed form, for a pool without repeated names (as
    [groupby("VM Name")] builds it): it claims the first
    [max 1 (quantity - selected)] unclaimed VMs, or all of them when
    there are fewer. *)
Lemma claim_pool_closed_form adv quantity pool selected recs seen :
  NoDup (vm_name <$> pool) →
  let claimed :=
    take (Z.to_nat (Z.max 1 (quantity - selected))) (unclaimed seen pool) in
  claim_pool adv quantity pool selected (recs, seen) =
  (recs ++ (make_rec adv <$> claimed), list_to_set (vm_name <$> claimed) ∪ seen).
Proof.
  revert selected recs seen.
  induction pool as [|vm rest IH]; intros selected recs seen Hnd; cbn zeta.
  - unfold unclaimed. rewrite filter_nil, take_nil. simpl.
    rewrite app_nil_r. f_equal. set_solver.
  - rewrite fmap_cons in Hnd. apply NoDup_cons in Hnd as [Hvm Hnd].
    cbn [claim_pool fst snd]. unfold unclaimed. rewrite filter_cons.
    destruct (decide (vm_name vm ∈ seen)) as [Hin|Hnew].
    + rewrite decide_False by (by intros Hc; apply Hc).
      apply (IH selected recs seen Hnd).
    + rewrite decide_True by done.
      assert (Z.to_nat (1 `max` (quantity - selected)) =
              S (Z.to_nat (1 `max` (quantity - selected)) - 1)) as -> by lia.
      cbn [take fmap list_fmap].
      destruct (quantity <=? selected + 1)%Z eqn:Hq.
      * apply Z.leb_le in Hq.
        replace (Z.to_nat (1 `max` (quantity - selected)) - 1)%nat with 0%nat by lia.
        rewrite take_0. simpl. f_equal. set_solver.
      * apply Z.leb_gt in Hq.
        rewrite (IH (selected + 1)%Z _ _ Hnd). cbn zeta.
        rewrite (unclaimed_insert _ _ _ Hvm).
        replace (Z.to_nat (1 `max` (quantity - (selected + 1))))
          with (Z.to_nat (1 `max` (quantity - selected)) - 1)%nat by lia.
        unfold unclaimed. rewrite <- app_assoc. simpl. f_equal. set_solver.
Qed.

(** A request for more VMs than the pool has unclaimed takes them all. *)
Lemma claim_pool_partial adv quantity pool recs seen :
  NoDup (vm_name <$> pool) →
  (Z.of_nat (length (unclaimed seen pool)) <= quantity)%Z →
  claim_pool adv quantity pool 0 (recs, seen) =
  (recs ++ (make_rec adv <$> unclaimed seen pool),
   list_to_set (vm_name <$> unclaimed seen pool) ∪ seen).
Proof.
  intros Hnd Hq. rewrite claim_pool_closed_form by done. cbn zeta.
  rewrite take_ge; [done|lia].
Qed.

(** A quantity of zero or less still claims the first unclaimed VM: the
    bound is looked at only after a claim. *)
Lemma claim_pool_nonpositive adv quantity vm rest recs seen :
  (quantity <= 0)%Z → vm_name vm ∉ seen →
  claim_pool adv quantity (vm :: rest) 0 (recs, seen) =
  (recs ++ [make_rec adv vm], {[vm_name vm]} ∪ seen).
Proof.
  intros Hq Hnew. cbn [claim_pool fst snd].
  rewrite decide_False by done.
  assert ((quantity <=? 0 + 1)%Z = true) as -> by (apply Z.leb_le; lia).
  done.
Qed.
End ClaimPool.

(** ** Ordered dictionaries *)

Section DictFacts.
Context {V : Type}.
Implicit Types (d : list (string * V)) (k : string) (v : V).

Lemma dict_set_elem k v d kv :
  kv ∈ PyDict.set k v d → kv = (k, v) ∨ kv ∈ d.
Proof.
  induction d as [|[k' v'] d IH]; simpl.
  - intros ->%list_elem_of_singleton. by left.
  - destruct (String.eqb k' k) eqn:Hk.
    + apply String.eqb_eq in Hk as ->.
      intros [->|H]%elem_of_cons; [by left|right; by right].
    + intros [->|H]%elem_of_cons; [right; by left|].
      destruct (IH H) as [->|?]; [by left|right; by right].
Qed.

Lemma dict_set_keys k v d :
  PyDict.keys (PyDict.set k v d) =
  if decide (k ∈ PyDict.keys d) then PyDict.keys d else PyDict.keys d ++ [k].
Proof.
  unfold PyDict.keys. induction d as [|[k' v'] d IH]; cbn [PyDict.set map fst].
  - rewrite decide_False; [done|]. apply not_elem_of_nil.
  - destruct (String.eqb k' k) eqn:Hk.
    + apply String.eqb_eq in Hk as ->. rewrite decide_True; [done|]. by left.
    + apply String.eqb_neq in Hk. cbn [map fst]. rewrite IH.
      destruct (decide (k ∈ map fst d)) as [Hin|Hin].
      * rewrite decide_True; [done|]. by right.
      * rewrite decide_False; [done|].
        intros [?|?]%elem_of_cons; [by subst|done].
Qed.

Lemma dict_set_has k v d : (k, v) ∈ PyDict.set k v d.
Proof.
  induction d as [|[k' v'] d IH]; simpl; [by left|].
  destruct (String.eqb k' k) eqn:Hk.
  - apply String.eqb_eq in Hk as ->. by left.
  - by right.
Qed.

Lemma dict_set_NoDup k v d :
  NoDup (PyDict.keys d) → NoDup (PyDict.keys (PyDict.set k v d)).
Proof.
  intros Hd. rewrite dict_set_keys. case_decide; [done|].
  apply NoDup_app. split_and!; [done| |apply NoDup_singleton].
  intros x Hx ->%list_elem_of_singleton. done.
Qed.

Lemma dict_set_key_elem k v d n :
  n ∈ PyDict.keys (PyDict.set k v d) ↔ n = k ∨ n ∈ PyDict.keys d.
Proof.
  rewrite dict_set_keys. case_decide.
  - split; [by right|]. by intros [->|?].
  - rewrite elem_of_app, list_elem_of_singleton. tauto.
Qed.
End DictFacts.

(** ** The price classifier *)

Section PricingFacts.
Import PyStr PyNum PySort Pricing.

Lemma insert_asc_perm {A} (key : A -> Q) (r : A) (l : list A) :
  insert_asc key r l ≡ₚ r :: l.
Proof.
  induction l as [|x l IH]; simpl; [done|].
  destruct (Qle_bool (key r) (key x)); [done|].
  rewrite IH. apply perm_swap.
Qed.

Lemma sort_asc_perm {A} (key : A -> Q) (l : list A) : sort_asc key l ≡ₚ l.
Proof.
  induction l as [|a l IH]; simpl; [done|].
  unfold sort_asc in *. simpl. rewrite insert_asc_perm. by rewrite IH.
Qed.

Lemma matches_os_spot item os_filter :
  meter_mentions_spot item = true → matches_os item os_filter = false.
Proof. unfold meter_mentions_spot, matches_os. cbn zeta. by intros ->. Qed.

Lemma payg_items_elem os_type prices p :
  p ∈ payg_items os_type prices →
  p ∈ prices ∧ has_type "Consumption" p = true ∧ matches_os p os_type = true.
Proof.
  unfold payg_items. intros Hp.
  assert (p ∈ List.filter
            (fun p => has_type "Consumption" p && matches_os p os_type) prices) as Hf.
  { destruct (is_linux os_type); [|done].
    eapply elem_of_sublist in Hp; [|apply sublist_take].
    by rewrite sort_asc_perm in Hp. }
  apply elem_of_bool_filter in Hf as [? [? ?]%andb_true_iff]. done.
Qed.

Lemma by_term_values (P : price_item -> Prop) (l : list price_item)
    (by_term : list (string * price_item)) :
  (∀ p, p ∈ l → P p) →
  (∀ kv, kv ∈ by_term → P kv.2) →
  ∀ kv, kv ∈ fold_left by_term_step l by_term → P kv.2.
Proof.
  revert by_term. induction l as [|p l IH]; intros by_term Hl Hd; simpl; [done|].
  apply IH; [intros q Hq; apply Hl; by right|].
  intros kv. unfold by_term_step.
  assert (kv ∈ PyDict.set (reservationTerm p) p by_term → P kv.2) as Hset.
  { intros [->|?]%dict_set_elem; [apply Hl; by left|by apply Hd]. }
  destruct (PyDict.get _ _); [|done].
  destruct (Qle_bool _ _); [apply Hd|done].
Qed.

Lemma reservation_items_elem os_type prices p :
  p ∈ reservation_items os_type prices →
  p ∈ prices ∧ has_type "Reservation" p = true
  ∧ (is_windows os_type = false → matches_os p os_type = true).
Proof.
  unfold reservation_items. destruct (is_windows os_type).
  - intros Hp. unfold PyDict.values in Hp.
    apply list_elem_of_fmap in Hp as (kv & -> & Hkv).
    revert kv Hkv.
    apply (by_term_values
             (fun p => p ∈ prices ∧ has_type "Reservation" p = true
                       ∧ (true = false → matches_os p os_type = true))).
    + intros q Hq.
      assert (q ∈ List.filter (has_type "Reservation") prices) as Hf.
      { destruct (List.filter (fun p => _ && _) prices) as [|c cs] eqn:Hclear; [done|].
        rewrite <- Hclear in Hq.
        apply elem_of_bool_filter in Hq as [? [? ?]%andb_true_iff].
        by apply elem_of_bool_filter. }
      apply elem_of_bool_filter in Hf as [? ?]. done.
    + intros kv Hkv. by apply elem_of_nil in Hkv.
  - intros Hp. apply elem_of_bool_filter in Hp as [? [? ?]%andb_true_iff]. done.
Qed.

Lemma rows_of_input_nil row : rows_of_input row [] = [].
Proof.
  unfold rows_of_input, payg_items, reservation_items. simpl.
  by destruct (is_linux _), (is_windows _).
Qed.

Lemma cached_prices_ok get_prices cache sku region :
  cache_ok get_prices cache →
  (cached_prices get_prices cache sku region).1 = get_prices sku region
  ∧ cache_ok get_prices (cached_prices get_prices cache sku region).2.
Proof.
  intros Hc. unfold cached_prices.
  destruct (cache !! (sku, region)) as [prices|] eqn:Hl; simpl.
  - split; [by apply Hc|done].
  - split; [done|]. intros s r ps.
    destruct (decide ((sku, region) = (s, r))) as [[= <- <-]|Hne].
    + rewrite lookup_insert_eq. congruence.
    + rewrite lookup_insert_ne by done. apply Hc.
Qed.

Lemma pricing_loop get_prices inputs st :
  cache_ok get_prices (price_cache st) →
  let st' := foldl (pricing_step get_prices) st inputs in
  estimate_rows st' = estimate_rows st ++ all_rows get_prices inputs
  ∧ unique_skus_regions st' = windows_keys inputs ∪ unique_skus_regions st.
Proof.
  revert st. induction inputs as [|row l IH]; intros st Hc; cbn zeta.
  - simpl. rewrite app_nil_r. split; [done|]. unfold windows_keys. set_solver.
  - cbn [foldl].
    destruct (cached_prices_ok get_prices (price_cache st) (Matcher.in_sku row)
                (Matcher.in_region row) Hc) as [Hp Hc'].
    assert (∃ st1, pricing_step get_prices st row = st1
              ∧ cache_ok get_prices (price_cache st1)
              ∧ estimate_rows st1 =
                estimate_rows st
                ++ rows_of_input row
                     (get_prices (Matcher.in_sku row) (Matcher.in_region row))
              ∧ unique_skus_regions st1 =
                (if is_windows (Matcher.in_os row)
                 then {[sanitized_sku_region (Matcher.in_os row) (Matcher.in_sku row)
                          (Matcher.in_region row)]} ∪ unique_skus_regions st
                 else unique_skus_regions st)) as (st1 & -> & Hc1 & Hr1 & Hk1).
    { eexists. split; [reflexivity|]. unfold pricing_step.
      destruct (cached_prices _ _ _ _) as [prices cache]. simpl in Hp, Hc'. subst prices.
      destruct (get_prices _ _) as [|p ps] eqn:Hg; simpl.
      - rewrite rows_of_input_nil, app_nil_r. done.
      - done. }
    destruct (IH st1 Hc1) as [Hr Hk]. cbn zeta in Hr, Hk.
    rewrite Hr, Hk, Hr1, Hk1. unfold all_rows. cbn [flat_map].
    rewrite <- app_assoc. split; [done|].
    unfold windows_keys. cbn [List.filter].
    destruct (is_windows (Matcher.in_os row)); [|done].
    cbn [map]. set_solver.
Qed.

Lemma build_azure_pricing_closed_form get_prices inputs :
  build_azure_pricing get_prices inputs
  = (all_rows get_prices inputs, windows_keys inputs).
Proof.
  unfold build_azure_pricing.
  edestruct (pricing_loop get_prices inputs) as [Hr Hk]; [|rewrite Hr, Hk].
  - simpl. intros ? ? ? H. by rewrite lookup_empty in H.
  - simpl. f_equal. set_solver.
Qed.
End PricingFacts.

(** ** The tables *)

Section ReportFacts.
Import PyStr PyNum PySort PyExn Report.

Lemma bind_Ok {A B} (m : result A) (f : A -> result B) (b : B) :
  m ≫= f = Ok b → ∃ a, m = Ok a ∧ f a = Ok b.
Proof. destruct m as [a| |]; simpl; [eauto|done|done]. Qed.

Ltac bind_inv H :=
  let a := fresh "a" in
  let Ha := fresh "H" a in
  apply bind_Ok in H as (a & Ha & H).

Lemma vm_pricing_not_ok_l rows (acc : result (list (string * Q))) :
  (∀ d, acc ≠ Ok d) → ∀ d, fold_left vm_pricing_step rows acc ≠ Ok d.
Proof.
  revert acc. induction rows as [|r rows IH]; intros acc Hacc; simpl; [done|].
  apply IH. intros d. destruct acc as [d0| |]; [by destruct (Hacc d0)|done|done].
Qed.

(** The keys of [vm_pricing] are the names of the VMs with a
    pay-as-you-go row, each once; the value kept for a name is the cost
    of one of its pay-as-you-go rows, zero where [float] fails. *)
Lemma vm_pricing_loop rows d d' :
  fold_left vm_pricing_step rows (Ok d) = Ok d' →
  NoDup (PyDict.keys d) →
  NoDup (PyDict.keys d')
  ∧ (∀ n, n ∈ PyDict.keys d' ↔
          n ∈ PyDict.keys d ∨ ∃ r, r ∈ rows ∧ is_payg_row r = true ∧ row_vm_name r = n)
  ∧ (∀ n c, (n, c) ∈ d' →
            (n, c) ∈ d ∨
            ∃ r, r ∈ rows ∧ is_payg_row r = true ∧ row_vm_name r = n
                 ∧ float_or_zero (clean_money (cell_str (row_cost r))) = Ok c).
Proof.
  revert d. induction rows as [|r rows IH]; intros d Hf Hnd; cbn [fold_left] in Hf.
  - injection Hf as <-. split_and!; [done| |by left].
    intros n. split; [by left|]. intros [?|(r & Hr & _)]; [done|].
    by apply elem_of_nil in Hr.
  - assert (vm_pricing_step (Ok d) r =
            if is_payg_row r
            then cost ← float_or_zero (clean_money (cell_str (row_cost r)));
                 mret (PyDict.set (row_vm_name r) cost d)
            else Ok d) as Hstep by done.
    rewrite Hstep in Hf. clear Hstep.
    destruct (is_payg_row r) eqn:Hpayg.
    + destruct (float_or_zero _) as [c0| |] eqn:Hc0; simpl in Hf;
        [|by apply vm_pricing_not_ok_l in Hf|by apply vm_pricing_not_ok_l in Hf].
      apply IH in Hf as (Hnd' & Hkeys & Hvals); [|by apply dict_set_NoDup].
      split_and!; [done| |].
      * intros n. rewrite Hkeys, dict_set_key_elem. split.
        -- intros [[->|?]|(r' & ? & ? & ?)].
           ++ right. exists r. split_and!; [by left|done|done].
           ++ by left.
           ++ right. exists r'. split_and!; [by right|done|done].
        -- intros [?|(r' & [->|?]%elem_of_cons & ? & ?)].
           ++ left. by right.
           ++ left. by left.
           ++ right. by exists r'.
      * intros n c Hnc. destruct (Hvals n c Hnc) as [Hin|(r' & ? & ? & ? & ?)].
        -- apply dict_set_elem in Hin as [[= -> ->]|?]; [|by left].
           right. exists r. split_and!; [by left|done|done|done].
        -- right. exists r'. split_and!; [by right|done|done|done].
    + simpl in Hf. apply IH in Hf as (Hnd' & Hkeys & Hvals); [|done].
      split_and!; [done| |].
      * intros n. rewrite Hkeys. split.
        -- intros [?|(r' & ? & ? & ?)]; [by left|].
           right. exists r'. split_and!; [by right|done|done].
        -- intros [?|(r' & [->|?]%elem_of_cons & ? & ?)]; [by left|congruence|].
           right. by exists r'.
      * intros n c Hnc. destruct (Hvals n c Hnc) as [?|(r' & ? & ? & ? & ?)]; [by left|].
        right. exists r'. split_and!; [by right|done|done|done].
Qed.

Lemma build_sorted_rows_groups df names :
  map blank_to_none (build_sorted_rows df names) = flat_map (vm_group df) names.
Proof.
  unfold build_sorted_rows, vm_group.
  induction names as [|n names IH]; [done|].
  cbn [flat_map]. rewrite !map_app, IH. reflexivity.
Qed.

Lemma for_each_length {A B} (f : A -> result B) (l : list A) (bs : list B) :
  for_each f l = Ok bs → length bs = length l.
Proof.
  revert bs. induction l as [|a l IH]; intros bs H; simpl in H.
  - by injection H as <-.
  - bind_inv H. bind_inv H. injection H as <-. simpl. f_equal. by apply IH.
Qed.

(** The shape of the as-quoted table. *)
Lemma build_df_final_shape df names df_final :
  build_df_final df names = Ok df_final →
  ∃ total_payg total_1yr total_3yr,
    df_final = flat_map (vm_group df) names ++ totals_rows total_payg total_1yr total_3yr.
Proof.
  unfold build_df_final. intros H. bind_inv H. bind_inv H. injection H as <-.
  assert (a = map blank_to_none (build_sorted_rows df names)) as ->.
  { unfold build_df_sorted in Ha.
    destruct (build_sorted_rows df names); [done|]. by injection Ha as <-. }
  rewrite build_sorted_rows_groups. eauto.
Qed.

End ReportFacts.

(** ** The claims about the matcher *)

Section MatcherClaims.
Import PyNum PyExn Matcher PySort Examples.

Lemma recommend_NoDup arrangement vm_pool advisor_filtered :
  NoDup (rec_vm_name <$> out_recommendations (recommend arrangement vm_pool advisor_filtered))
  ∧ NoDup (rec_vm_name <$> out_impact_recs (recommend arrangement vm_pool advisor_filtered)).
Proof.
  assert (NoDup (rec_vm_name <$>
                 out_recommendations (recommend arrangement vm_pool advisor_filtered)))
    as Hfull.
  { cbn [recommend out_recommendations]. unfold sort_recommendations.
    rewrite list_sort_desc_perm. apply build_recommendations_ok. }
  split; [done|]. by apply select_impact_NoDup.
Qed.

(** C1.  In every run of the matcher that gets past the Advisor filter no
    VM name is claimed by two recommendations: the names down the full
    sorted list are pairwise distinct, and so are the names down the list
    selected for output, whatever the pool holds, however many Advisor
    rows share a (SKU, region) key and in whatever order the sort leaves
    the list.  The only run that does not get past the filter is the one
    on a sheet with rows none of which has a text for its description,
    where [.str] raises. *)
Theorem no_vm_claimed_twice (arrangement : list nat) (advisor_df : list advisor_row)
    (vm_pool : gmap (string * string) (list vm_entry)) :
  match generate_vm_recommendations arrangement advisor_df vm_pool with
  | Ok out =>
      NoDup (rec_vm_name <$> out_recommendations out)
      ∧ NoDup (rec_vm_name <$> out_impact_recs out)
  | Raise e => e = AttributeError ∧ advisor_df ≠ [] ∧ no_text advisor_df = true
  | NonFinite => False
  end.
Proof.
  unfold generate_vm_recommendations.
  destruct (advisor_filter_cases advisor_df) as [[-> _]|(-> & Hne & Hno)]; [|done].
  cbn [mbind result_bind]. apply recommend_NoDup.
Qed.

(** C2.  The Advisor row [adv_zero] is eligible and its quantity
    truncates to 0, yet the matcher creates a recommendation from it: the
    first unclaimed VM of the pool is claimed before the quantity is
    looked at. *)
Theorem quantity_zero_claims_one :
  eligible adv_zero = true
  ∧ PyNum.py_int (adv_quantity adv_zero) = 0%Z
  ∧ ∃ out, generate_vm_recommendations [] [adv_zero] pool_ab = Ok out
           ∧ rec_vm_name <$> out_recommendations out = ["vm-a"].
Proof. split_and!; [done|done|]. eexists. split; [reflexivity|]. by vm_compute. Qed.

(** C3.  For every full recommendation list, the number of entries
    selected for output is the larger of the number with savings >= 10
    and the smaller of 20 and the number with savings > 1. *)
Theorem high_impact_count (recommendations : list recommendation) :
  length (select_impact recommendations) =
  Nat.max (length (List.filter meets_threshold recommendations))
          (Nat.min 20 (length (List.filter above_one recommendations))).
Proof. apply select_impact_length. Qed.





End MatcherClaims.

(** ** The claims about the price classifier *)

Section PricingClaims.
Import PyStr PyNum PySort Pricing Examples.
Import Matcher.

Lemma all_rows_elem get_prices inputs r :
  r ∈ all_rows get_prices inputs →
  ∃ row, row ∈ inputs
         ∧ r ∈ rows_of_input row (get_prices (in_sku row) (in_region row)).
Proof.
  unfold all_rows. rewrite list_elem_of_In, in_flat_map.
  intros (row & Hrow & Hr). exists row. by rewrite !list_elem_of_In.
Qed.

Lemma rows_of_input_elem row prices r :
  r ∈ rows_of_input row prices →
  (∃ p, p ∈ payg_items (in_os row) prices ∧ r = payg_row row p)
  ∨ (∃ p, p ∈ reservation_items (in_os row) prices ∧ r = reservation_row row p).
Proof.
  unfold rows_of_input. rewrite elem_of_app.
  intros [H|H]; apply list_elem_of_In, in_map_iff in H as (p & <- & Hp);
    [left|right]; exists p; by rewrite list_elem_of_In.
Qed.

(** C4, as the code has it.  An item whose meter name mentions "spot" or
    "low priority", in any letter case, is rejected by [matches_os] under
    every OS filter; it is in no pay-as-you-go selection, and in no
    reservation selection made for an OS other than Windows. *)
Theorem spot_meter_excluded (p : price_item) (os_type : string)
    (prices : list price_item) :
  meter_mentions_spot p = true →
  matches_os p os_type = false
  ∧ (p ∉ payg_items os_type prices)
  ∧ (is_windows os_type = false → p ∉ reservation_items os_type prices).
Proof.
  intros Hspot. pose proof (matches_os_spot p os_type Hspot) as Hno.
  split_and!; [done| |].
  - intros (_ & _ & Hm)%payg_items_elem. congruence.
  - intros Hw (_ & _ & Hm)%reservation_items_elem. specialize (Hm Hw). congruence.
Qed.

Lemma spot_meter_excluded_witness :
  meter_mentions_spot payg_spot = true
  ∧ matches_os payg_spot "Linux" = false
  ∧ (payg_spot ∉ payg_items "Linux" (get_prices "Standard_D2s_v3" "eastus"))
  ∧ (is_windows "Linux" = false →
     payg_spot ∉ reservation_items "Linux" (get_prices "Standard_D2s_v3" "eastus")).
Proof.
  split; [reflexivity|].
  apply (spot_meter_excluded payg_spot "Linux" (get_prices "Standard_D2s_v3" "eastus")).
  reflexivity.
Defined.

(** C4 as stated fails twice over.  A reservation item whose meter name
    says "Spot" is kept by the Windows reservation selection and reaches
    the rows of a Windows VM; a consumption item whose product name says
    "Spot" is kept for a Linux VM. *)
Lemma spot_item_reaches_output :
  meter_mentions_spot reservation_spot = true
  ∧ reservation_items "Windows" [reservation_spot] = [reservation_spot]
  ∧ (build_azure_pricing (fun _ _ => [reservation_spot]) [input_win]).1
    = [reservation_row input_win reservation_spot]
  ∧ product_mentions_spot payg_product_spot = true
  ∧ payg_items "Linux" [payg_product_spot] = [payg_product_spot]
  ∧ (build_azure_pricing (fun _ _ => [payg_product_spot]) [input_linux]).1
    = [payg_row input_linux payg_product_spot].
Proof. by vm_compute. Qed.




(** The float of a product or quotient is not the exact value: at the
    unit price 0.0085 the product with 730 lies above 6.205 and rounds to
    6.21, and the quotients of 2.7 by 12 and of 6.3 by 36 round to 0.23
    and to 0.17. *)
Example costs_round_the_float :
  Binary64.format_money (payg_monthly_cost (priced 0.0085 None)) = "$6.21"
  ∧ Binary64.format_money (reservation_monthly_cost (priced 2.7 (Some "1 Year"))) = "$0.23"
  ∧ Binary64.format_money (reservation_monthly_cost (priced 6.3 (Some "3 Years"))) = "$0.17"
  ∧ Binary64.format_money (payg_monthly_cost (priced 0.188 None)) = "$137.24"
  ∧ Binary64.format_money (reservation_monthly_cost (priced 968 (Some "3 Years"))) = "$26.89".
Proof. by vm_compute. Qed.

(** C7.  Every report row is the row of one price item of the pair's
    query.  For a pay-as-you-go row the item is a consumption item and
    the monthly cost is its unit price times 730, rounded to two
    decimals; for a reservation row the item is a reservation item and the
    monthly cost is its unit price divided by 12 when the term contains
    the character "1" and by 36 otherwise, rounded to two decimals.  The
    product and the quotient are those of float arithmetic, [round] is
    taken of the float they give, and the cell shows the outcome with two
    decimals. *)
Theorem monthly_cost_formulas (get_prices : string -> string -> list price_item)
    (inputs : list input_row) (r : report_row) :
  r ∈ (build_azure_pricing get_prices inputs).1 →
  ∃ row p, row ∈ inputs ∧ p ∈ get_prices (in_sku row) (in_region row)
    ∧ ((has_type "Consumption" p = true
        ∧ r = payg_row row p
        ∧ row_cost r =
          Some (Binary64.format_money
                  (Binary64.round2
                     (Binary64.mul (Binary64.of_Q (unitPrice p)) (Binary64.of_Q 730)))))
       ∨ (has_type "Reservation" p = true
          ∧ r = reservation_row row p
          ∧ row_cost r =
            Some (Binary64.format_money
                    (Binary64.round2
                       (Binary64.div (Binary64.of_Q (unitPrice p))
                          (Binary64.of_Q
                             (if contains "1" (reservationTerm p) then 12 else 36))))))).
Proof.
  rewrite build_azure_pricing_closed_form. cbn [fst].
  intros (row & Hrow & Hr)%all_rows_elem.
  apply rows_of_input_elem in Hr as [(p & Hp & ->)|(p & Hp & ->)]; exists row, p.
  - apply payg_items_elem in Hp as (Hin & Hty & _).
    split_and!; [done|done|]. left. done.
  - apply reservation_items_elem in Hp as (Hin & Hty & _).
    split_and!; [done|done|]. right. done.
Qed.

Lemma monthly_cost_formulas_witness :
  reservation_row input_win reservation_3y
    ∈ (build_azure_pricing get_prices [input_win]).1
  ∧ ∃ row p, row ∈ [input_win] ∧ p ∈ get_prices (in_sku row) (in_region row)
    ∧ ((has_type "Consumption" p = true
        ∧ reservation_row input_win reservation_3y = payg_row row p
        ∧ row_cost (reservation_row input_win reservation_3y) =
          Some (Binary64.format_money
                  (Binary64.round2
                     (Binary64.mul (Binary64.of_Q (unitPrice p)) (Binary64.of_Q 730)))))
       ∨ (has_type "Reservation" p = true
          ∧ reservation_row input_win reservation_3y = reservation_row row p
          ∧ row_cost (reservation_row input_win reservation_3y) =
            Some (Binary64.format_money
                    (Binary64.round2
                       (Binary64.div (Binary64.of_Q (unitPrice p))
                          (Binary64.of_Q
                             (if contains "1" (reservationTerm p) then 12 else 36))))))).
Proof.
  assert (reservation_row input_win reservation_3y
            ∈ (build_azure_pricing get_prices [input_win]).1) as H.
  { vm_compute. do 2 right. left. }
  split; [exact H|].
  exact (monthly_cost_formulas get_prices [input_win] _ H).
Defined.
End PricingClaims.

(** ** The claims about the tables *)

Section ReportClaims.
Import PyStr PyNum PySort PyExn Report Examples.

Lemma build_final_dataframes_inv estimate_rows windows_pricing_data
    df_final df_savings df_ranked :
  build_final_dataframes estimate_rows windows_pricing_data
  = Ok (df_final, df_savings, df_ranked) →
  ∃ vm_pricing,
    build_vm_pricing estimate_rows = Ok vm_pricing
    ∧ build_df_final estimate_rows (map fst (sort_vms vm_pricing)) = Ok df_final
    ∧ build_df_savings windows_pricing_data df_final = Ok df_savings
    ∧ df_ranked = build_df_ranked (sort_vms vm_pricing).
Proof.
  unfold build_final_dataframes. intros H.
  apply bind_Ok in H as (vm_pricing & Hvm & H).
  apply bind_Ok in H as (df_final' & Hfinal & H).
  apply bind_Ok in H as (df_savings' & Hsavings & H).
  injection H as <- <- <-. eauto.
Qed.


(** A cell that [float] cannot read makes the lambda of the totals
    raise; a blank or missing cell counts as zero; the same text inside
    the [try] of the [vm_pricing] loop counts as zero. *)
Lemma cost_numeric_unparsable (r : report_row) (c : string) :
  row_cost r = Some c → c ≠ EmptyString →
  py_float (clean_money c) = PError →
  cost_numeric false r = Raise ValueError
  ∧ float_or_zero (clean_money c) = Ok 0%Q.
Proof.
  intros Hc Hne Herr. unfold cost_numeric, float_or_raise, float_or_zero.
  rewrite Hc, Herr. apply String.eqb_neq in Hne as ->. done.
Qed.

(** C6.  The cost cell "$Unavailable", written into the reconciled table
    from the secondary source, is not read as zero: [float] fails on it
    and the exception leaves [build_final_dataframes].  The [try] around
    the parse in the [vm_pricing] loop reads the same text as zero, and a
    cell with a currency symbol and a thousands separator is read as its
    number. *)
Theorem unparsable_secondary_price_raises :
  build_final_dataframes (build_azure_pricing get_prices [input_win]).1
    secondary_unavailable = Raise ValueError
  ∧ float_or_zero (clean_money "$Unavailable") = Ok 0%Q
  ∧ float_or_raise (clean_money "$1,234.50") = Ok 1234.50%Q.
Proof. by vm_compute. Qed.


(** C9, as the code has it.  The as-quoted table is one group per VM
    that has a pay-as-you-go row, then the three total rows.  A group is
    all the rows of that VM followed by a blank row; each such VM has one
    group; the groups stand in descending order of the ordering key,
    which is the cost of a pay-as-you-go row of the VM, or zero when the
    cost cannot be read.  A VM without a pay-as-you-go row has no group. *)
Theorem as_quoted_table_groups (estimate_rows : list report_row)
    (windows_pricing_data : gmap string (gmap string string))
    (df_final df_savings : list report_row) (df_ranked : list (string * string)) :
  build_final_dataframes estimate_rows windows_pricing_data
  = Ok (df_final, df_savings, df_ranked) →
  ∃ (vms : list (string * Q)) (total_payg total_1yr total_3yr : Q),
    df_final = flat_map (vm_group estimate_rows) (map fst vms)
               ++ totals_rows total_payg total_1yr total_3yr
    ∧ NoDup (map fst vms)
    ∧ StronglySorted (descending snd) vms
    ∧ (∀ n, n ∈ map fst vms ↔
            ∃ r, r ∈ estimate_rows ∧ is_payg_row r = true ∧ row_vm_name r = n)
    ∧ (∀ n c, (n, c) ∈ vms →
              ∃ r, r ∈ estimate_rows ∧ is_payg_row r = true ∧ row_vm_name r = n
                   ∧ float_or_zero (clean_money (cell_str (row_cost r))) = Ok c).
Proof.
  intros (vm_pricing & Hvm & Hf & _ & _)%build_final_dataframes_inv.
  apply build_df_final_shape in Hf as (tp & t1 & t3 & ->).
  unfold build_vm_pricing in Hvm.
  apply vm_pricing_loop in Hvm as (Hnd & Hkeys & Hvals); [|constructor].
  exists (sort_vms vm_pricing), tp, t1, t3.
  assert (sort_vms vm_pricing ≡ₚ vm_pricing) as Hperm by apply sort_desc_perm.
  split_and!.
  - done.
  - change (NoDup (fst <$> sort_vms vm_pricing)). by rewrite Hperm.
  - apply sort_desc_sorted.
  - intros n.
    assert (n ∈ map fst (sort_vms vm_pricing) ↔ n ∈ PyDict.keys vm_pricing) as ->.
    { change (n ∈ fst <$> sort_vms vm_pricing ↔ n ∈ fst <$> vm_pricing).
      by rewrite Hperm. }
    rewrite Hkeys. split.
    + intros [Hn|?]; [by apply elem_of_nil in Hn|done].
    + by right.
  - intros n c Hnc. rewrite Hperm in Hnc.
    destruct (Hvals n c Hnc) as [Hn|?]; [by apply elem_of_nil in Hn|done].
Qed.

Lemma as_quoted_table_groups_witness :
  ∃ df_final df_savings df_ranked,
    build_final_dataframes
      (build_azure_pricing get_prices [input_linux; input_win; input_win_e4]).1
      secondary_prices
    = Ok (df_final, df_savings, df_ranked)
    ∧ ∃ (vms : list (string * Q)) (total_payg total_1yr total_3yr : Q),
        df_final =
          flat_map
            (vm_group
               (build_azure_pricing get_prices [input_linux; input_win; input_win_e4]).1)
            (map fst vms)
          ++ totals_rows total_payg total_1yr total_3yr
        ∧ NoDup (map fst vms)
        ∧ StronglySorted (descending snd) vms
        ∧ (∀ n, n ∈ map fst vms ↔
                ∃ r, r ∈ (build_azure_pricing get_prices
                            [input_linux; input_win; input_win_e4]).1
                     ∧ is_payg_row r = true ∧ row_vm_name r = n)
        ∧ (∀ n c, (n, c) ∈ vms →
                  ∃ r, r ∈ (build_azure_pricing get_prices
                              [input_linux; input_win; input_win_e4]).1
                       ∧ is_payg_row r = true ∧ row_vm_name r = n
                       ∧ float_or_zero (clean_money (cell_str (row_cost r))) = Ok c).
Proof.
  assert (∃ out,
            build_final_dataframes
              (build_azure_pricing get_prices [input_linux; input_win; input_win_e4]).1
              secondary_prices = Ok out) as [[[f s] k] Hrun]
    by (vm_compute; eexists; reflexivity).
  exists f, s, k. split; [exact Hrun|].
  exact (as_quoted_table_groups _ _ _ _ _ Hrun).
Defined.


(** The closing rows of that run, as the spreadsheet shows them. *)
Example closing_rows_of_a_run :
  closing_costs
    (build_final_dataframes
       (build_azure_pricing get_prices [input_linux; input_win]).1 secondary_prices)
  = Some [ ("Total Yearly Pay-as-you-go", Some "$2,522.88");
           ("Total 1 Year Reservations (Annual cost)", Some "$1,647.00");
           ("Annual Savings (1 Year Reservations)", Some "$875.88");
           ("Total 3 Year Reservations (annual cost)", Some "$645.36");
           ("3 Year Reservations (Annual Savings)", Some "$1,877.52") ].
Proof. by vm_compute. Qed.

(** C9 as stated fails.  The VM "vm-c" contributes two reservation rows
    and no pay-as-you-go row; the as-quoted table then holds the group of
    "vm-a", its blank row and the three total rows, and no row of
    "vm-c". *)
Lemma vm_without_payg_row_is_dropped :
  let estimate_rows := (build_azure_pricing get_prices [input_win; input_win_e4]).1 in
  map row_vm_name estimate_rows = ["vm-a"; "vm-a"; "vm-a"; "vm-c"; "vm-c"]
  ∧ map is_payg_row estimate_rows = [true; false; false; false; false]
  ∧ final_vm_names (build_final_dataframes estimate_rows ∅)
    = Some ["vm-a"; "vm-a"; "vm-a"; EmptyString;
            EmptyString; EmptyString; EmptyString].
Proof. by vm_compute. Qed.
End ReportClaims.

(** ** Printing and reading money *)

Section MoneyRoundTrip.
Import PyStr PyNum PyExn Report NumText.

Lemma prefix_empty (s : string) : String.prefix EmptyString s = true.
Proof. by destruct s. Qed.

Lemma replace_char (c : ascii) (s : string) :
  replace (String c EmptyString) EmptyString s = remove_char c s.
Proof.
  unfold replace. induction s as [|a s IH]; [done|].
  cbn [replace_from remove_char String.prefix].
  destruct (ascii_dec c a) as [->|Hne].
  - rewrite prefix_empty. exact IH.
  - by rewrite IH.
Qed.

Lemma remove_char_app (c : ascii) (s t : string) :
  remove_char c (s +:+ t) = remove_char c s +:+ remove_char c t.
Proof.
  induction s as [|a s IH]; [done|].
  change (String a s +:+ t) with (String a (s +:+ t)). cbn [remove_char].
  destruct (ascii_dec c a); [exact IH|].
  change (String a (remove_char c s) +:+ remove_char c t)
    with (String a (remove_char c s +:+ remove_char c t)).
  by rewrite IH.
Qed.

Lemma remove_char_absent (p : ascii -> bool) (c : ascii) (s : string) :
  p c = false → all_chars p s = true → remove_char c s = s.
Proof.
  intros Hc. induction s as [|a s IH]; [done|]. cbn [all_chars remove_char].
  intros [Ha Hs]%andb_true_iff. destruct (ascii_dec c a) as [->|_]; [congruence|].
  by rewrite IH.
Qed.

Lemma remove_comma_group (n : nat) (s : string) :
  remove_char "," (group_from n s) = remove_char "," s.
Proof.
  revert n. induction s as [|a s IH]; intros n; [done|].
  cbn [group_from].
  destruct n as [|[|k]]; cbn [remove_char]; try (rewrite IH; done).
  destruct (S k mod 3 =? 0)%nat; cbn [remove_char]; rewrite ?IH;
    by destruct (ascii_dec "," a).
Qed.

Lemma all_chars_app (p : ascii -> bool) (s t : string) :
  all_chars p (s +:+ t) = all_chars p s && all_chars p t.
Proof.
  induction s as [|a s IH]; [done|].
  change (String a s +:+ t) with (String a (s +:+ t)). cbn [all_chars].
  by rewrite IH, andb_assoc.
Qed.

Lemma all_chars_impl (p q : ascii -> bool) (s : string) :
  (∀ a, p a = true → q a = true) → all_chars p s = true → all_chars q s = true.
Proof.
  intros Hpq. induction s as [|a s IH]; [done|]. cbn [all_chars].
  intros [Ha Hs]%andb_true_iff. by rewrite (Hpq a Ha), IH.
Qed.

Lemma uint_string_digits (d : Decimal.uint) :
  all_chars is_digit (NilEmpty.string_of_uint d) = true.
Proof. induction d; done. Qed.

Lemma string_of_N_digits (n : N) : all_chars is_digit (string_of_N n) = true.
Proof.
  unfold string_of_N, NilZero.string_of_uint.
  destruct (N.to_uint n); try done; apply (uint_string_digits (_ _)).
Qed.

Lemma append_cons (a : ascii) (s t : string) : String a s +:+ t = String a (s +:+ t).
Proof. done. Qed.

Lemma digits_tail_digit (c : ascii) (s : string) :
  is_digit c = true →
  digits_tail (String c s) = (digit_val c :: (digits_tail s).1, (digits_tail s).2).
Proof. intros Hc. cbn [digits_tail]. rewrite Hc. by destruct (digits_tail s). Qed.

Lemma digitpart_digit (c : ascii) (s : string) :
  is_digit c = true →
  digitpart (String c s) = (digit_val c :: (digits_tail s).1, (digits_tail s).2).
Proof. intros Hc. cbn [digitpart]. rewrite Hc. by destruct (digits_tail s). Qed.

Lemma uint_string_tail (d : Decimal.uint) (rest : string) :
  ends_digits rest →
  digits_tail (NilEmpty.string_of_uint d +:+ rest) = (uint_digits d, rest).
Proof.
  intros Hrest.
  induction d; cbn [NilEmpty.string_of_uint uint_digits]; [exact Hrest|..];
    rewrite append_cons, digits_tail_digit, IHd by done; done.
Qed.

Lemma uint_value_acc (d : Decimal.uint) (acc : positive) :
  fold_left (fun a x => (10 * a + x)%N) (uint_digits d) (N.pos acc)
  = N.pos (Pos.of_uint_acc d acc).
Proof.
  revert acc.
  induction d; intros acc; cbn [uint_digits fold_left Pos.of_uint_acc]; [done|..];
    rewrite <- IHd; f_equal; lia.
Qed.

Lemma uint_value (d : Decimal.uint) : N_of_digits (uint_digits d) = N.of_uint d.
Proof.
  unfold N_of_digits, N.of_uint.
  induction d; cbn [uint_digits fold_left Pos.of_uint]; [done|exact IHd|..];
    apply (uint_value_acc d).
Qed.

(** The numeral of a number, followed by something that ends it, is read
    back as the digits of that number. *)
Lemma string_of_N_digitpart (n : N) (rest : string) :
  ends_digits rest →
  ∃ ds, digitpart (string_of_N n +:+ rest) = (ds, rest) ∧ N_of_digits ds = n ∧ ds ≠ [].
Proof.
  intros Hrest. unfold string_of_N, NilZero.string_of_uint.
  pose proof (DecimalN.Unsigned.of_to n) as Hn.
  destruct (N.to_uint n) as [|d|d|d|d|d|d|d|d|d|d] eqn:Hd.
  { exists [0%N]. rewrite <- Hn. split_and!; [|done|done].
    rewrite append_cons, digitpart_digit by done.
    change (EmptyString +:+ rest) with rest. by rewrite Hrest. }
  all: eexists (uint_digits (_ d)); rewrite uint_value, Hn; split_and!; [|done|done];
    cbn [NilEmpty.string_of_uint uint_digits];
    rewrite append_cons, digitpart_digit, uint_string_tail by done; done.
Qed.
End MoneyRoundTrip.

Section MoneyRoundTrip2.
Import PyStr PyNum PyExn Report NumText.

Lemma two_digits_shape (n : N) :
  (n < 100)%N →
  ∃ a b, two_digits n = String a (String b EmptyString)
         ∧ is_digit a = true ∧ is_digit b = true
         ∧ (digit_val a * 10 + digit_val b)%N = n.
Proof.
  intros Hn.
  set (check := fun n : N =>
         match two_digits n with
         | String a (String b EmptyString) =>
             is_digit a && is_digit b && (digit_val a * 10 + digit_val b =? n)%N
         | _ => false
         end).
  assert (forallb check (map N.of_nat (seq 0 100)) = true) as Hall by (by vm_compute).
  assert (check n = true) as Hc.
  { rewrite forallb_forall in Hall. apply Hall, in_map_iff.
    exists (N.to_nat n). split; [lia|]. apply in_seq. lia. }
  unfold check in Hc. destruct (two_digits n) as [|a [|b [|? ?]]]; try done.
  apply andb_true_iff in Hc as [[Ha Hb]%andb_true_iff Hv%N.eqb_eq]. eauto 10.
Qed.

Lemma N_of_digits_app2 (ds : list N) (a b : N) :
  N_of_digits (ds ++ [a; b]) = (N_of_digits ds * 100 + (a * 10 + b))%N.
Proof. unfold N_of_digits. rewrite fold_left_app. cbn [fold_left]. lia. Qed.

(** A numeral with two decimals is read as so many hundredths. *)
Lemma parse_unsigned_decimal (k : N) :
  parse_unsigned (string_of_N (k / 100) +:+ "." +:+ two_digits (k mod 100))
  = Some (Z.of_N k # 100).
Proof.
  destruct (two_digits_shape (k mod 100)) as (a & b & -> & Ha & Hb & Hab);
    [apply N.mod_lt; lia|].
  destruct (string_of_N_digitpart (k / 100) ("." +:+ String a (String b EmptyString)))
    as (ip & Hip & Hval & Hne); [done|].
  unfold parse_unsigned. rewrite Hip.
  change ("." +:+ String a (String b EmptyString))
    with (String "." (String a (String b EmptyString))).
  cbv iota beta.
  rewrite (digitpart_digit a) by done. rewrite (digits_tail_digit b) by done.
  cbn [digits_tail fst snd].
  destruct ip as [|i ip]; [done|].
  cbn [parse_exponent length].
  rewrite N_of_digits_app2, Hval, Hab.
  replace (N.div k 100 * 100 + N.modulo k 100)%N with k
    by (rewrite (N.div_mod k 100) at 1; lia).
  reflexivity.
Qed.

Lemma plain_char_code (a : ascii) :
  plain_char a = true → is_c_space a = false ∧ (nat_of_ascii a < 128)%nat.
Proof.
  unfold plain_char. intros [Hs Ha%Nat.ltb_lt]%andb_true_iff.
  by apply negb_true_iff in Hs.
Qed.

Lemma plain_char_not_space2 (a b : ascii) :
  plain_char a = true → is_space2 a b = false ∧ is_space2 b a = false.
Proof.
  intros [_ Ha]%plain_char_code. unfold is_space2.
  assert ((nat_of_ascii a =? 194)%nat = false) as -> by (apply Nat.eqb_neq; lia).
  assert ((nat_of_ascii a =? 133)%nat = false) as -> by (apply Nat.eqb_neq; lia).
  assert ((nat_of_ascii a =? 160)%nat = false) as -> by (apply Nat.eqb_neq; lia).
  by rewrite andb_false_r.
Qed.

Lemma plain_char_not_space3 (a b c : ascii) :
  plain_char a = true → is_space3 a b c = false ∧ is_space3 c b a = false.
Proof.
  intros [_ Ha]%plain_char_code. unfold is_space3.
  assert ((nat_of_ascii a =? 225)%nat = false) as -> by (apply Nat.eqb_neq; lia).
  assert ((nat_of_ascii a =? 226)%nat = false) as -> by (apply Nat.eqb_neq; lia).
  assert ((nat_of_ascii a =? 227)%nat = false) as -> by (apply Nat.eqb_neq; lia).
  assert ((128 <=? nat_of_ascii a)%nat = false) as -> by (apply Nat.leb_gt; lia).
  assert ((nat_of_ascii a =? 128)%nat = false) as -> by (apply Nat.eqb_neq; lia).
  assert ((nat_of_ascii a =? 168)%nat = false) as -> by (apply Nat.eqb_neq; lia).
  assert ((nat_of_ascii a =? 169)%nat = false) as -> by (apply Nat.eqb_neq; lia).
  assert ((nat_of_ascii a =? 175)%nat = false) as -> by (apply Nat.eqb_neq; lia).
  assert ((nat_of_ascii a =? 159)%nat = false) as -> by (apply Nat.eqb_neq; lia).
  by rewrite !andb_false_r.
Qed.

Lemma drop_spaces_plain (backwards : bool) (a : ascii) (s : string) :
  plain_char a = true →
  drop_spaces is_c_space backwards (String a s) = String a s.
Proof.
  intros Ha. cbn [drop_spaces].
  destruct (plain_char_code a Ha) as [-> _].
  destruct s as [|b s]; [done|].
  destruct (plain_char_not_space2 a b Ha) as [-> ->].
  destruct s as [|c s]; [by destruct backwards|].
  destruct (plain_char_not_space3 a b c Ha) as [-> ->]. by destruct backwards.
Qed.

Lemma all_chars_reverse_onto (p : ascii -> bool) (s acc : string) :
  all_chars p (reverse_onto s acc) = all_chars p s && all_chars p acc.
Proof.
  revert acc. induction s as [|a s IH]; intros acc; [done|].
  cbn [reverse_onto all_chars]. rewrite IH. cbn [all_chars].
  by destruct (p a), (all_chars p s).
Qed.

Lemma reverse_involutive (s : string) : reverse (reverse s) = s.
Proof.
  assert (∀ s acc, reverse (reverse_onto s acc) = reverse_onto acc s) as H.
  { clear s. induction s as [|a s IH]; intros acc; [done|].
    cbn [reverse_onto]. by rewrite IH. }
  unfold reverse at 2. by rewrite H.
Qed.

(** Nothing is stripped from a text made of such bytes. *)
Lemma float_strip_plain (s : string) :
  all_chars plain_char s = true → float_strip s = s.
Proof.
  intros Hs. unfold float_strip, strip_with.
  assert (∀ b t, all_chars plain_char t = true → drop_spaces is_c_space b t = t) as Hdrop.
  { intros b [|a t]; [done|]. cbn [all_chars]. intros [Ha _]%andb_true_iff.
    by apply drop_spaces_plain. }
  rewrite (Hdrop false s Hs), Hdrop, reverse_involutive; [done|].
  unfold reverse. rewrite all_chars_reverse_onto, Hs. done.
Qed.

Lemma plain_is_ascii (s : string) : all_chars plain_char s = true → is_ascii s = true.
Proof.
  induction s as [|a s IH]; [done|]. cbn [all_chars is_ascii].
  intros [[_ Ha]%andb_true_iff Hs]%andb_true_iff. by rewrite Ha, IH.
Qed.

Lemma digit_facts (c : ascii) :
  is_digit c = true →
  is_space c = false ∧ c ≠ "$"%char ∧ c ≠ ","%char ∧ c ≠ "-"%char ∧ c ≠ "+"%char
  ∧ lower_char c = c ∧ c ≠ "i"%char ∧ c ≠ "n"%char.
Proof.
  destruct c as [[] [] [] [] [] [] [] []]; intros H; try discriminate H;
    by vm_compute.
Qed.
End MoneyRoundTrip2.

Section MoneyRoundTrip3.
Import PyStr PyNum PyExn Report NumText.

Lemma remove_char_comm (c d : ascii) (s : string) :
  remove_char c (remove_char d s) = remove_char d (remove_char c s).
Proof.
  induction s as [|a s IH]; [done|]. cbn [remove_char].
  destruct (ascii_dec d a), (ascii_dec c a); cbn [remove_char];
    repeat match goal with
           | |- context [ascii_dec ?x ?y] => destruct (ascii_dec x y); try done
           end; by rewrite IH.
Qed.

Lemma clean_money_remove (s : string) :
  clean_money s = remove_char "$" (remove_char "," s).
Proof. unfold clean_money. by rewrite !replace_char, remove_char_comm. Qed.

Lemma digits_clean (c : ascii) (s : string) :
  (c = "$" ∨ c = ",")%char → all_chars is_digit s = true → remove_char c s = s.
Proof.
  intros Hc. apply (remove_char_absent is_digit). by destruct Hc as [-> | ->].
Qed.

Lemma digit_plain (c : ascii) : is_digit c = true → plain_char c = true.
Proof.
  destruct c as [[] [] [] [] [] [] [] []]; intros H; try discriminate H;
    by vm_compute.
Qed.

Lemma digits_plain (s : string) :
  all_chars is_digit s = true → all_chars plain_char s = true.
Proof. apply all_chars_impl. intros a Ha. by apply digit_plain. Qed.

Lemma two_digits_digits (n : N) : (n < 100)%N → all_chars is_digit (two_digits n) = true.
Proof.
  intros Hn. destruct (two_digits_shape n Hn) as (a & b & -> & Ha & Hb & _).
  cbn [all_chars]. by rewrite Ha, Hb.
Qed.

Lemma string_of_N_head (n : N) :
  ∃ c s, string_of_N n = String c s ∧ is_digit c = true.
Proof.
  unfold string_of_N, NilZero.string_of_uint.
  destruct (N.to_uint n); cbn [NilEmpty.string_of_uint]; eauto.
Qed.

(** The text of the number inside a formatted amount, once the currency
    sign and the separators are gone. *)
Definition plain_2f (k : N) : string :=
  string_of_N (k / 100) +:+ "." +:+ two_digits (k mod 100).

Lemma plain_2f_plain (k : N) : all_chars plain_char (plain_2f k) = true.
Proof.
  unfold plain_2f. rewrite !all_chars_app.
  rewrite (digits_plain (string_of_N _)) by apply string_of_N_digits.
  rewrite (digits_plain (two_digits _)) by (apply two_digits_digits, N.mod_lt; lia).
  done.
Qed.

Lemma plain_2f_head (k : N) : ∃ c s, plain_2f k = String c s ∧ is_digit c = true.
Proof.
  unfold plain_2f. destruct (string_of_N_head (k / 100)) as (c & s & -> & Hc).
  rewrite append_cons. eauto.
Qed.

Lemma clean_money_format (x : Q) :
  clean_money (format_money x) =
  if Qle_bool 0 x then plain_2f (Z.abs_N (cents x))
  else "-" +:+ plain_2f (Z.abs_N (cents x)).
Proof.
  rewrite clean_money_remove. unfold format_money, format_2f, plain_2f. cbv zeta.
  set (k := Z.abs_N (cents x)).
  assert (remove_char "$" (remove_char ","
            (group_thousands (string_of_N (k / 100)) +:+ "." +:+ two_digits (k mod 100)))
          = string_of_N (k / 100) +:+ "." +:+ two_digits (k mod 100)) as Hbody.
  { rewrite !remove_char_app. unfold group_thousands. rewrite remove_comma_group.
    assert (all_chars is_digit (two_digits (k mod 100)) = true) as Hdd
      by (apply two_digits_digits, N.mod_lt; lia).
    rewrite (digits_clean "," (string_of_N _)) by (auto using string_of_N_digits).
    rewrite (digits_clean "$" (string_of_N _)) by (auto using string_of_N_digits).
    rewrite (digits_clean "," (two_digits _)) by auto.
    rewrite (digits_clean "$" (two_digits _)) by auto.
    done. }
  assert (∀ s, remove_char "$" (remove_char "," ("$" +:+ s))
               = remove_char "$" (remove_char "," s)) as Hdollar by done.
  assert (∀ s, remove_char "$" (remove_char "," ("-" +:+ s))
               = "-" +:+ remove_char "$" (remove_char "," s)) as Hminus by done.
  destruct (Qle_bool 0 x).
  - by rewrite Hdollar, Hbody.
  - by rewrite Hdollar, Hminus, Hbody.
Qed.
End MoneyRoundTrip3.

Section MoneyRoundTrip4.
Import PyStr PyNum PyExn Report NumText.

Lemma is_special_digit (c : ascii) (s : string) :
  is_digit c = true → is_special (String c s) = false.
Proof.
  intros Hc. destruct (digit_facts c Hc) as (_ & _ & _ & _ & _ & Hl & Hi & Hn).
  unfold is_special. cbn [lower]. rewrite Hl. cbn [String.eqb].
  apply Ascii.eqb_neq in Hi, Hn. by rewrite Hi, Hn.
Qed.

Lemma py_float_unsigned (c : ascii) (s : string) :
  is_digit c = true →
  all_chars plain_char (String c s) = true →
  py_float (String c s) =
  match parse_unsigned (String c s) with
  | Some q => if Qle_bool overflow_bound q then PSpecial else PNum q
  | None => PError
  end.
Proof.
  intros Hc Hs. unfold py_float.
  rewrite (float_strip_plain _ Hs), (plain_is_ascii _ Hs). cbn [negb].
  assert ((match String c s with
           | String "-" b => (true, b)
           | String "+" b => (false, b)
           | _ => (false, String c s)
           end) = (false, String c s)) as ->.
  { clear Hs. destruct c as [[] [] [] [] [] [] [] []]; try discriminate Hc; done. }
  by rewrite is_special_digit.
Qed.

Lemma py_float_negative (c : ascii) (s : string) :
  is_digit c = true →
  all_chars plain_char (String c s) = true →
  py_float (String "-" (String c s)) =
  match parse_unsigned (String c s) with
  | Some q => if Qle_bool overflow_bound q then PSpecial else PNum (- q)
  | None => PError
  end.
Proof.
  intros Hc Hs. unfold py_float.
  assert (all_chars plain_char (String "-" (String c s)) = true) as Hm
    by (cbn [all_chars] in *; by rewrite Hs).
  rewrite (float_strip_plain _ Hm), (plain_is_ascii _ Hm). cbn [negb].
  cbv iota beta. by rewrite is_special_digit.
Qed.

Lemma cents_sign (x : Q) :
  if Qle_bool 0 x then (0 <= cents x)%Z else (cents x <= 0)%Z.
Proof.
  unfold cents, round_half_even.
  destruct x as [n d]. unfold Qle_bool. cbn [Qnum Qden Qmult].
  set (D := Z.pos (d * 1)).
  assert (0 < D)%Z as HD by (subst D; lia).
  pose proof (Z.div_mod (n * 100) D ltac:(lia)) as Hdm.
  pose proof (Z.mod_pos_bound (n * 100) D HD) as Hm.
  destruct (0 * Z.pos d <=? n * 1)%Z eqn:Hle.
  - apply Z.leb_le in Hle.
    assert (0 <= Z.div (n * 100) D)%Z by (apply Z.div_pos; lia).
    repeat (case_match; try lia).
  - apply Z.leb_gt in Hle.
    assert (Z.div (n * 100) D < 0)%Z by (apply Z.div_lt_upper_bound; lia).
    repeat (case_match; try lia).
Qed.

(** A formatted amount, cleaned and given to [float], is the amount
    rounded to hundredths. *)
Lemma py_float_format_money (x : Q) :
  py_float (clean_money (format_money x)) =
  if Qle_bool overflow_bound (Qabs (cents x # 100)) then PSpecial
  else PNum (cents x # 100).
Proof.
  rewrite clean_money_format. pose proof (cents_sign x) as Hsign.
  change (Qabs (cents x # 100)) with (Z.abs (cents x) # 100).
  rewrite <- (N2Z.inj_abs_N (cents x)).
  set (k := Z.abs_N (cents x)) in *.
  destruct (plain_2f_head k) as (c & s & Hcs & Hc).
  pose proof (plain_2f_plain k) as Hns.
  pose proof (parse_unsigned_decimal k) as Hp. fold (plain_2f k) in Hp.
  destruct (Qle_bool 0 x).
  - rewrite Hcs in *. rewrite (py_float_unsigned c s Hc Hns), Hp.
    destruct (Qle_bool _ _); [done|].
    subst k. by rewrite N2Z.inj_abs_N, Z.abs_eq.
  - change ("-" +:+ plain_2f k) with (String "-" (plain_2f k)).
    rewrite Hcs in *. rewrite (py_float_negative c s Hc Hns), Hp.
    destruct (Qle_bool _ _); [done|].
    subst k. rewrite N2Z.inj_abs_N. unfold Qopp. cbn [Qnum Qden].
    by rewrite Z.abs_neq, Z.opp_involutive.
Qed.
End MoneyRoundTrip4.

(** ** When the report is produced *)

Section ReportProduced.
Import PyStr PyNum PySort PyExn Report Readable.

Lemma for_each_ok {A B} (f : A -> result B) (l : list A) :
  (∀ x, x ∈ l → ∃ b, f x = Ok b) → ∃ bs, for_each f l = Ok bs.
Proof.
  induction l as [|a l IH]; intros H; [by exists []|].
  destruct (H a) as [b Hb]; [by left|].
  destruct IH as [bs Hbs]; [intros x Hx; apply H; by right|].
  exists (b :: bs). cbn [for_each]. by rewrite Hb, Hbs.
Qed.

Lemma cents_bound (x : Q) (M : Z) :
  (Qabs x <= inject_Z M)%Q → (Z.abs (cents x) <= 100 * M)%Z.
Proof.
  unfold cents, round_half_even. destruct x as [n d].
  unfold Qle, Qabs, inject_Z. cbn [Qnum Qden Qmult]. intros Hx.
  set (D := Z.pos (d * 1)).
  assert (D = Z.pos d) as HD by (subst D; lia).
  assert (0 < D)%Z as HDpos by lia.
  pose proof (Z.div_mod (n * 100) D ltac:(lia)) as Hdm.
  pose proof (Z.mod_pos_bound (n * 100) D HDpos) as Hm.
  set (f := Z.div (n * 100) D) in *. set (m := Z.modulo (n * 100) D) in *.
  assert (- (100 * M) * D <= n * 100 <= 100 * M * D)%Z as Hn by lia.
  clearbody f m D. repeat case_match; nia.
Qed.

Lemma max_float_below : (2 ^ 1024 - 2 ^ 971 <? 2 ^ 1024 - 2 ^ 970)%Z = true.
Proof. by vm_compute. Qed.

Lemma in_range_no_overflow (x : Q) :
  (Qabs x <= max_float)%Q → Qle_bool overflow_bound (Qabs (cents x # 100)) = false.
Proof.
  intros Hx%cents_bound. apply not_true_is_false. intros Hc%Qle_bool_iff.
  unfold Qle, overflow_bound, Qabs, inject_Z in Hc. cbn [Qnum Qden] in Hc.
  pose proof max_float_below as Hlt. apply Z.ltb_lt in Hlt.
  set (B := (2 ^ 1024 - 2 ^ 970)%Z) in *. set (M := (2 ^ 1024 - 2 ^ 971)%Z) in *.
  clearbody B M. lia.
Qed.

Lemma format_money_accepted (q : Q) : float_accepts (format_money q).
Proof. unfold float_accepts. rewrite py_float_format_money. by destruct (Qle_bool _ _). Qed.

Lemma float_money_accepted (x : Binary64.float) : float_accepts (Binary64.format_money x).
Proof.
  destruct x as [[]|[]| |s m e];
    [by vm_compute|by vm_compute|by vm_compute|by vm_compute|by vm_compute|].
  apply (format_money_accepted (Binary64.to_Q (SpecFloat.S754_finite s m e))).
Qed.

Lemma goes_through_bind {A B} (m : result A) (f : A -> result B) :
  goes_through m → (∀ a, m = Ok a → goes_through (f a)) → goes_through (m ≫= f).
Proof. destruct m; cbn; eauto. Qed.

Lemma for_each_goes {A B} (f : A -> result B) (l : list A) :
  (∀ x, x ∈ l → goes_through (f x)) → goes_through (for_each f l).
Proof.
  induction l as [|a l IH]; intros H; cbn [for_each]; [done|].
  apply goes_through_bind; [apply H; by left|]. intros b _.
  apply goes_through_bind; [apply IH; intros x Hx; apply H; by right|]. done.
Qed.

Lemma cost_numeric_goes (skip_totals : bool) (r : report_row) :
  cost_readable r → goes_through (cost_numeric skip_totals r).
Proof.
  unfold cost_readable, cost_numeric. destruct (row_cost r) as [c|]; [|done].
  intros [->|Hc]; [done|].
  destruct (String.eqb c EmptyString); [done|].
  destruct (skip_totals && _); [done|].
  unfold float_or_raise. unfold float_accepts in Hc. by destruct (py_float _).
Qed.

(** The parse inside [try] never raises. *)
Lemma float_or_zero_goes (s : string) : goes_through (float_or_zero s).
Proof. unfold float_or_zero. by destruct (py_float s). Qed.

Lemma build_vm_pricing_goes (rows : list report_row) (acc : result (list (string * Q))) :
  goes_through acc → goes_through (fold_left vm_pricing_step rows acc).
Proof.
  revert acc. induction rows as [|r rows IH]; intros acc Hacc; [done|].
  cbn [fold_left]. apply IH. unfold vm_pricing_step.
  apply goes_through_bind; [done|]. intros d _.
  destruct (contains "Pay-as-you-go" (row_description r)); [|done].
  apply goes_through_bind; [apply float_or_zero_goes|done].
Qed.

Lemma blank_to_none_readable (r : report_row) :
  cost_readable r → cost_readable (blank_to_none r).
Proof.
  unfold blank_to_none. destruct (row_cost r) as [[|a s]|] eqn:Hc; [done|..];
    unfold cost_readable; by rewrite Hc.
Qed.

Lemma override_row_readable windows_pricing_data (r : report_row) :
  secondary_readable windows_pricing_data →
  cost_readable r → cost_readable (override_row windows_pricing_data r).
Proof.
  intros Hsec Hr. unfold override_row.
  destruct (_ || _); [done|].
  destruct (windows_pricing_data !! _) as [info|] eqn:Hinfo; [|done].
  assert (∀ label,
            cost_readable
              match info !! label with
              | Some cost => set_cost (Some (dollar cost)) r
              | None => r
              end) as Hput.
  { intros label. destruct (info !! label) as [cost|] eqn:Hcost; [|done].
    right. by eapply Hsec. }
  repeat (case_match; try done).
Qed.

Lemma label_row_readable (category description : string) (q : Q) :
  cost_readable (label_row category description (format_money q)).
Proof. right. apply format_money_accepted. Qed.

Lemma sorted_rows_readable (rows : list report_row) (names : list string) :
  Forall cost_readable rows →
  Forall cost_readable (map blank_to_none (build_sorted_rows rows names)).
Proof.
  intros Hrows. apply Forall_forall. intros r Hr.
  apply list_elem_of_In, in_map_iff in Hr as (r' & <- & Hr').
  apply blank_to_none_readable.
  unfold build_sorted_rows in Hr'. apply in_flat_map in Hr' as (n & _ & Hr').
  apply in_app_or in Hr' as [Hr'|[<-|[]]]; [|by left].
  apply filter_In in Hr' as [Hr' _].
  rewrite Forall_forall in Hrows. by apply Hrows, list_elem_of_In.
Qed.

Lemma build_df_final_readable (rows : list report_row) (names : list string)
    (df_final : list report_row) :
  Forall cost_readable rows →
  build_df_final rows names = Ok df_final →
  Forall cost_readable df_final.
Proof.
  intros Hrows H. unfold build_df_final in H.
  apply bind_Ok in H as (a & Ha & H). apply bind_Ok in H as (costs & _ & H).
  injection H as <-.
  assert (a = map blank_to_none (build_sorted_rows rows names)) as ->.
  { unfold build_df_sorted in Ha.
    destruct (build_sorted_rows rows names); [done|]. by injection Ha as <-. }
  apply Forall_app. split; [by apply sorted_rows_readable|].
  unfold totals_rows.
  repeat (apply Forall_cons; split; [apply label_row_readable|]).
  by apply Forall_nil.
Qed.

(** No exception leaves [build_final_dataframes] as soon as some row is
    a pay-as-you-go row and [float] takes every cost cell, of the rows and
    of the secondary source. *)
Lemma build_final_dataframes_goes (estimate_rows : list report_row)
    (windows_pricing_data : gmap string (gmap string string)) :
  Forall cost_readable estimate_rows →
  secondary_readable windows_pricing_data →
  (∃ r, r ∈ estimate_rows ∧ is_payg_row r = true) →
  goes_through (build_final_dataframes estimate_rows windows_pricing_data).
Proof.
  intros Hrows Hsec (r0 & Hr0 & Hpayg). unfold build_final_dataframes.
  apply goes_through_bind; [by apply build_vm_pricing_goes|]. intros d Hd.
  apply vm_pricing_loop in Hd as (_ & Hkeys & _); [|constructor].
  assert (row_vm_name r0 ∈ map fst (sort_vms d)) as Hname.
  { change (row_vm_name r0 ∈ fst <$> sort_vms d).
    unfold sort_vms. rewrite sort_desc_perm. apply Hkeys. right. by exists r0. }
  apply goes_through_bind.
  { unfold build_df_final, build_df_sorted.
    destruct (build_sorted_rows estimate_rows (map fst (sort_vms d))) as [|x xs] eqn:Hsorted.
    { exfalso. unfold build_sorted_rows in Hsorted.
      destruct (map fst (sort_vms d)) as [|n ns]; [by apply elem_of_nil in Hname|].
      cbn [flat_map] in Hsorted. by destruct (rows_of_vm estimate_rows n). }
    rewrite <- Hsorted. clear Hsorted. cbn [mbind result_bind].
    apply goes_through_bind; [|done]. apply for_each_goes. intros r Hr.
    apply cost_numeric_goes.
    pose proof (sorted_rows_readable estimate_rows (map fst (sort_vms d)) Hrows) as Hall.
    rewrite Forall_forall in Hall. by apply Hall. }
  intros df_final Hfinal%build_df_final_readable; [|done].
  apply goes_through_bind; [|done].
  unfold build_df_savings. apply goes_through_bind; [|done].
  unfold recompute_totals. apply goes_through_bind; [|done].
  apply for_each_goes. intros x Hx. apply cost_numeric_goes.
  apply list_elem_of_In, in_map_iff in Hx as (r' & <- & Hr').
  apply override_row_readable; [done|].
  rewrite Forall_forall in Hfinal. by apply Hfinal, list_elem_of_In.
Qed.

(** Without a pay-as-you-go row no table is produced: the frame built
    from no row has no cost column. *)
Lemma build_final_dataframes_no_payg (estimate_rows : list report_row)
    (windows_pricing_data : gmap string (gmap string string)) :
  (∀ r, r ∈ estimate_rows → is_payg_row r = false) →
  build_final_dataframes estimate_rows windows_pricing_data = Raise KeyError.
Proof.
  intros Hnone.
  assert (∀ d, fold_left vm_pricing_step estimate_rows (Ok d) = Ok d) as Hd.
  { induction estimate_rows as [|r rows IH]; intros d; [done|].
    cbn [fold_left]. unfold vm_pricing_step at 2. cbn [mbind result_bind].
    fold (is_payg_row r). rewrite (Hnone r) by (by left).
    apply IH. intros r' Hr'. apply Hnone. by right. }
  unfold build_final_dataframes, build_vm_pricing. rewrite Hd. done.
Qed.
End ReportProduced.

(** ** More on the classifier *)

Section ClassifierFacts.
Import PyStr PyNum PySort PyExn Pricing Classifier.






End ClassifierFacts.

Section ByTermFacts.
Import PyStr PyNum PySort PyExn Pricing Classifier.









Lemma phase1_keys_eq (inputs : list Matcher.input_row) :
  phase1_keys inputs = windows_keys inputs.
Proof.
  unfold phase1_keys.
  assert (∀ acc, foldl phase1_step acc inputs = windows_keys inputs ∪ acc) as H.
  { induction inputs as [|row l IH]; intros acc; cbn [foldl].
    - unfold windows_keys. set_solver.
    - rewrite IH. unfold phase1_step, windows_keys. cbn [List.filter].
      unfold is_windows at 2.
      destruct (String.eqb (lower (Matcher.in_os row)) "windows") eqn:Hw; [|done].
      cbn [map]. unfold sanitized_sku_region, sanitized_sku, is_windows. rewrite Hw.
      set_solver. }
  rewrite H. set_solver.
Qed.
End ByTermFacts.

(** ** The pool of running VMs *)

Section InventoryFacts.
Import PyStr Matcher Inventory.

Lemma ascii_compare_N (a b : ascii) :
  Ascii.compare a b = N.compare (N_of_ascii a) (N_of_ascii b).
Proof. done. Qed.

Lemma string_leb_trans (a b c : string) :
  String.leb a b = true → String.leb b c = true → String.leb a c = true.
Proof.
  unfold String.leb. revert b c.
  induction a as [|x a IH]; intros [|y b] [|z c]; cbn [String.compare]; try done.
  rewrite !ascii_compare_N.
  destruct (N.compare_spec (N_of_ascii x) (N_of_ascii y)) as [Hxy|Hxy|Hxy];
    destruct (N.compare_spec (N_of_ascii y) (N_of_ascii z)) as [Hyz|Hyz|Hyz];
    destruct (N.compare_spec (N_of_ascii x) (N_of_ascii z)) as [Hxz|Hxz|Hxz];
    try done; try lia.
  apply IH.
Qed.

Lemma insert_name_perm (n : string) (l : list string) : insert_name n l ≡ₚ n :: l.
Proof.
  induction l as [|x l IH]; cbn [insert_name]; [done|].
  destruct (String.leb n x); [done|]. rewrite IH. apply perm_swap.
Qed.

Lemma sort_names_perm (l : list string) : sort_names l ≡ₚ l.
Proof.
  induction l as [|a l IH]; [done|]. unfold sort_names in *. cbn [foldr].
  by rewrite insert_name_perm, IH.
Qed.

Lemma insert_name_sorted (n : string) (l : list string) :
  StronglySorted name_le l → StronglySorted name_le (insert_name n l).
Proof.
  induction 1 as [|x l Hl IH Hx]; cbn [insert_name].
  - repeat constructor.
  - destruct (String.leb n x) eqn:Hle.
    + constructor; [by constructor|]. constructor; [done|].
      eapply Forall_impl; [exact Hx|]. intros y Hy. by eapply string_leb_trans.
    + constructor; [done|]. rewrite insert_name_perm. constructor; [|done].
      destruct (String.leb_total n x) as [H|H]; [congruence|done].
Qed.

Lemma sort_names_sorted (l : list string) : StronglySorted name_le (sort_names l).
Proof.
  induction l as [|a l IH]; [constructor|].
  unfold sort_names in *. cbn [foldr]. by apply insert_name_sorted.
Qed.


Lemma group_names_elem (vm_df : list vm_row) (n : string) :
  n ∈ group_names vm_df ↔ ∃ r, r ∈ vm_df ∧ vr_name r = Some n.
Proof.
  unfold group_names. rewrite sort_names_perm, elem_of_remove_dups, list_elem_of_omap.
  done.
Qed.

Lemma vm_entries_names (cols : vm_columns) (vm_df : list vm_row) :
  vm_name <$> vm_entries cols vm_df = group_names (running_rows cols vm_df).
Proof.
  unfold vm_entries. cbv zeta.
  change (map ?f ?l) with (f <$> l). rewrite <- list_fmap_compose.
  induction (group_names (running_rows cols vm_df)) as [|n l IH]; [done|].
  cbn [fmap list_fmap] in *. by rewrite IH.
Qed.

(** What the loop of [setdefault(...).append(...)] leaves under a key:
    the entries with that key, in the order they came. *)
Lemma pool_at_foldl (entries : list vm_entry)
    (vm_pool : gmap (string * string) (list vm_entry)) (key : string * string) :
  pool_at (foldl add_entry vm_pool entries) key
  = pool_at vm_pool key ++ filter (λ e, entry_key e = key) entries.
Proof.
  revert vm_pool. induction entries as [|e entries IH]; intros vm_pool; cbn [foldl].
  - by rewrite filter_nil, app_nil_r.
  - rewrite IH, filter_cons. unfold pool_at, add_entry.
    destruct (decide (entry_key e = key)) as [<-|Hne].
    + rewrite lookup_insert_eq. simpl. by rewrite <- app_assoc.
    + by rewrite lookup_insert_ne.
Qed.

Lemma pool_at_build (cols : vm_columns) (vm_df : list vm_row) (key : string * string) :
  pool_at (build_vm_pool cols vm_df) key
  = filter (λ e, entry_key e = key) (vm_entries cols vm_df).
Proof.
  unfold build_vm_pool. rewrite pool_at_foldl. unfold pool_at.
  by rewrite lookup_empty.
Qed.

Lemma pool_at_sublist (cols : vm_columns) (vm_df : list vm_row) (key : string * string) :
  vm_name <$> pool_at (build_vm_pool cols vm_df) key
  `sublist_of` group_names (running_rows cols vm_df).
Proof.
  rewrite pool_at_build, <- vm_entries_names.
  apply fmap_sublist, sublist_filter.
Qed.
End InventoryFacts.

(** ** Further properties of the classifier *)

Section ClassifierProperties.
Import PyStr PyNum PySort PyExn Pricing Classifier Examples.
Import Matcher.






(** X3.  The SKU-region pairs collected by the first pass of
    [generate_pricing_spreadsheets], which are the pairs scraped, are the
    pairs [build_azure_pricing] collects over the same inputs, whatever
    the price query returns. *)
Theorem scraped_pairs_agree (get_prices : string -> string -> list price_item)
    (inputs : list input_row) :
  phase1_keys inputs = (build_azure_pricing get_prices inputs).2.
Proof. by rewrite phase1_keys_eq, build_azure_pricing_closed_form. Qed.

(** X4.  The pricing loop works input by input: the rows for a list of
    inputs followed by another are the rows of the first followed by the
    rows of the second, and the collected pairs are the union.  The cache
    changes nothing that is returned, and an input whose query returns no
    item adds no row. *)
Theorem pricing_rows_compose (get_prices : string -> string -> list price_item)
    (inputs1 inputs2 : list input_row) :
  (build_azure_pricing get_prices (inputs1 ++ inputs2)).1
  = (build_azure_pricing get_prices inputs1).1 ++ (build_azure_pricing get_prices inputs2).1
  ∧ (build_azure_pricing get_prices (inputs1 ++ inputs2)).2
    = (build_azure_pricing get_prices inputs1).2 ∪ (build_azure_pricing get_prices inputs2).2
  ∧ (∀ row, get_prices (in_sku row) (in_region row) = [] →
            (build_azure_pricing get_prices [row]).1 = []).
Proof.
  rewrite !build_azure_pricing_closed_form. cbn [fst snd]. split_and!.
  - unfold all_rows. by rewrite flat_map_app.
  - unfold windows_keys. rewrite List.filter_app, map_app, list_to_set_app_L. done.
  - intros row Hrow. rewrite build_azure_pricing_closed_form. cbn [fst].
    unfold all_rows. cbn [flat_map]. by rewrite Hrow, rows_of_input_nil.
Qed.
End ClassifierProperties.

(** ** Further properties of the tables *)

Section ReportProperties.
Import PyStr PyNum PySort PyExn Pricing Report Readable Examples.
Import Matcher.

(** X5.  A cost written with [f"${x:,.2f}"] and read back with
    [float(s.replace('$', '').replace(',', ''))] is the amount rounded to
    hundredths: the parse never fails on a cell the program formatted, for
    any amount in the range of float, negative or with thousands
    separators. *)
Theorem formatted_cost_reads_back (x : Q) :
  (Qabs x <= max_float)%Q →
  py_float (clean_money (format_money x)) = PNum (round2 x)
  ∧ float_or_raise (clean_money (format_money x)) = Ok (round2 x)
  ∧ float_or_zero (clean_money (format_money x)) = Ok (round2 x).
Proof.
  intros Hx. pose proof (py_float_format_money x) as H.
  rewrite (in_range_no_overflow x Hx) in H. unfold float_or_raise, float_or_zero.
  rewrite H. done.
Qed.

Lemma formatted_cost_reads_back_witness :
  (Qabs (-1234567.895) <= max_float)%Q
  ∧ py_float (clean_money (format_money (-1234567.895))) = PNum (round2 (-1234567.895))
  ∧ float_or_raise (clean_money (format_money (-1234567.895)))
    = Ok (round2 (-1234567.895))
  ∧ float_or_zero (clean_money (format_money (-1234567.895)))
    = Ok (round2 (-1234567.895)).
Proof.
  assert (Qabs (-1234567.895) <= max_float)%Q as H by (by vm_compute).
  split; [exact H|]. exact (formatted_cost_reads_back (-1234567.895) H).
Defined.

Lemma contains_refl (n : string) : contains n n = true.
Proof.
  assert (String.prefix n n = true) as H by (induction n as [|a n IH]; [done|];
    cbn [String.prefix]; by destruct (ascii_dec a a)).
  destruct n; cbn [contains]; by rewrite H.
Qed.

Lemma contains_app_r (n s t : string) :
  contains n t = true → contains n (s +:+ t) = true.
Proof.
  intros Ht. induction s as [|a s IH]; [done|].
  change (String a s +:+ t) with (String a (s +:+ t)). cbn [contains].
  rewrite IH. apply orb_true_r.
Qed.

Lemma payg_row_is_payg (row : input_row) (p : price_item) :
  is_payg_row (payg_row row p) = true.
Proof.
  unfold is_payg_row, payg_row. cbn [row_description].
  do 6 apply contains_app_r. done.
Qed.

Lemma pricing_rows_readable (get_prices : string -> string -> list price_item)
    (inputs : list input_row) :
  Forall cost_readable (build_azure_pricing get_prices inputs).1.
Proof.
  rewrite build_azure_pricing_closed_form. cbn [fst].
  apply Forall_forall. intros r (row & _ & Hr)%all_rows_elem.
  apply rows_of_input_elem in Hr as [(p & _ & ->)|(p & _ & ->)];
    right; apply float_money_accepted.
Qed.

(** X6.  On the rows [build_azure_pricing] emits no exception leaves
    [build_final_dataframes] when at least one input has a pay-as-you-go
    item and [float] takes every price string of the secondary source
    (as a number, an infinity or a NaN): the tables are produced, or an
    amount that is not finite has been read and the run goes on with
    it. *)
Theorem report_is_produced (get_prices : string -> string -> list price_item)
    (inputs : list input_row) (windows_pricing_data : gmap string (gmap string string)) :
  (∃ row, row ∈ inputs
          ∧ payg_items (in_os row) (get_prices (in_sku row) (in_region row)) ≠ []) →
  secondary_readable windows_pricing_data →
  goes_through
    (build_final_dataframes (build_azure_pricing get_prices inputs).1 windows_pricing_data).
Proof.
  intros (row & Hrow & Hpayg) Hsec.
  apply build_final_dataframes_goes; [apply pricing_rows_readable|done|].
  destruct (payg_items (in_os row) (get_prices (in_sku row) (in_region row)))
    as [|p ps] eqn:Hitems; [done|].
  exists (payg_row row p). split; [|apply payg_row_is_payg].
  rewrite build_azure_pricing_closed_form. cbn [fst]. unfold all_rows.
  apply list_elem_of_In, in_flat_map. exists row. split; [by apply list_elem_of_In|].
  unfold rows_of_input. rewrite Hitems. by left.
Qed.

Lemma report_is_produced_witness :
  (∃ row, row ∈ [input_linux; input_win]
          ∧ payg_items (in_os row) (get_prices (in_sku row) (in_region row)) ≠ [])
  ∧ secondary_readable secondary_prices
  ∧ goes_through
      (build_final_dataframes (build_azure_pricing get_prices [input_linux; input_win]).1
         secondary_prices).
Proof.
  assert (∃ row, row ∈ [input_linux; input_win]
                 ∧ payg_items (in_os row) (get_prices (in_sku row) (in_region row)) ≠ [])
    as H1 by (exists input_linux; split; [left|vm_compute; discriminate]).
  assert (secondary_readable secondary_prices) as H2.
  { intros key info label cost Hkey Hcost. unfold secondary_prices in Hkey.
    apply lookup_singleton_Some in Hkey as [_ <-].
    apply lookup_insert_Some in Hcost as [[_ <-]|[_ Hcost]]; [by vm_compute|].
    apply lookup_singleton_Some in Hcost as [_ <-]. by vm_compute. }
  split; [exact H1|]. split; [exact H2|].
  exact (report_is_produced get_prices [input_linux; input_win] secondary_prices H1 H2).
Defined.

(** X7.  When no row is a pay-as-you-go row, and so also for no row at
    all, [build_final_dataframes] raises KeyError: the frame of sorted rows
    is built from nothing and has no cost column. *)
Theorem no_payg_row_is_key_error (estimate_rows : list report_row)
    (windows_pricing_data : gmap string (gmap string string)) :
  (∀ r, r ∈ estimate_rows → is_payg_row r = false) →
  build_final_dataframes estimate_rows windows_pricing_data = Raise KeyError.
Proof. apply build_final_dataframes_no_payg. Qed.

Lemma no_payg_row_is_key_error_witness :
  (∀ r, r ∈ (build_azure_pricing get_prices [input_win_e4]).1 → is_payg_row r = false)
  ∧ build_final_dataframes (build_azure_pricing get_prices [input_win_e4]).1
      secondary_prices = Raise KeyError.
Proof.
  assert (∀ r, r ∈ (build_azure_pricing get_prices [input_win_e4]).1 →
               is_payg_row r = false) as H.
  { intros r Hr. vm_compute in Hr.
    apply elem_of_cons in Hr as [->|Hr]; [reflexivity|].
    apply elem_of_cons in Hr as [->|Hr]; [reflexivity|].
    by apply elem_of_nil in Hr. }
  split; [exact H|].
  exact (no_payg_row_is_key_error _ secondary_prices H).
Defined.

Lemma override_row_same (windows_pricing_data : gmap string (gmap string string))
    (r : report_row) :
  set_cost None (override_row windows_pricing_data r) = set_cost None r.
Proof. unfold override_row. repeat (case_match; try done). Qed.

Lemma set_where_same (label value : string) (r : report_row) :
  set_cost None (if String.eqb (row_description r) label then set_cost (Some value) r else r)
  = set_cost None r.
Proof. by destruct (String.eqb _ _). Qed.

Lemma build_df_savings_rows windows_pricing_data df_final df_savings (i : nat) (r : report_row) :
  build_df_savings windows_pricing_data df_final = Ok df_savings →
  df_final !! i = Some r →
  ∃ r', df_savings !! i = Some r'
        ∧ set_cost None r' = set_cost None r
        ∧ (row_description r ∉ total_labels →
           r' = override_row windows_pricing_data r).
Proof.
  unfold build_df_savings. intros H Hi.
  apply bind_Ok in H as (t & _ & H). injection H as <-.
  rewrite lookup_app_l
    by (unfold set_where; rewrite !length_map; by eapply lookup_lt_Some).
  unfold set_where.
  change (map ?f ?l) with (f <$> l). rewrite !list_lookup_fmap, Hi. cbn [fmap option_fmap option_map].
  eexists. split; [done|].
  pose proof (override_row_same windows_pricing_data r) as Hsame.
  assert (row_description (override_row windows_pricing_data r) = row_description r) as Hd
    by (by injection Hsame).
  split.
  - repeat (destruct (String.eqb _ _); cbn [set_cost row_description] in *); done.
  - intros Hlabel. unfold total_labels in Hlabel. rewrite !not_elem_of_cons in Hlabel.
    destruct Hlabel as (H1 & H2 & H3 & _).
    rewrite Hd. apply String.eqb_neq in H1 as ->.
    cbn [row_description]. rewrite Hd. apply String.eqb_neq in H2 as ->.
    rewrite Hd. by apply String.eqb_neq in H3 as ->.
Qed.

(** X8.  The reconciled table repeats the as-quoted table row for row
    and then adds ten rows: at every position of the as-quoted table it
    holds a row that differs from the as-quoted one in the cost cell at
    most. *)
Theorem reconciled_differs_in_cost_only (estimate_rows : list report_row)
    (windows_pricing_data : gmap string (gmap string string))
    (df_final df_savings : list report_row) (df_ranked : list (string * string))
    (i : nat) (r : report_row) :
  build_final_dataframes estimate_rows windows_pricing_data
  = Ok (df_final, df_savings, df_ranked) →
  df_final !! i = Some r →
  ∃ r', df_savings !! i = Some r' ∧ set_cost None r' = set_cost None r.
Proof.
  intros (_ & _ & _ & Hs & _)%build_final_dataframes_inv Hi.
  destruct (build_df_savings_rows _ _ _ i r Hs Hi) as (r' & ? & ? & _). eauto.
Qed.

Lemma reconciled_differs_in_cost_only_witness :
  ∃ df_final df_savings df_ranked r,
    build_final_dataframes (build_azure_pricing get_prices [input_win]).1 secondary_prices
    = Ok (df_final, df_savings, df_ranked)
    ∧ df_final !! 0%nat = Some r
    ∧ ∃ r', df_savings !! 0%nat = Some r' ∧ set_cost None r' = set_cost None r.
Proof.
  assert (∃ out,
            build_final_dataframes (build_azure_pricing get_prices [input_win]).1
              secondary_prices = Ok out
            ∧ ∃ r, out.1.1 !! 0%nat = Some r) as ([[f s] k] & Hrun & r & Hr)
    by (vm_compute; eexists; split; [reflexivity|eexists; reflexivity]).
  exists f, s, k, r. split; [exact Hrun|]. split; [exact Hr|].
  exact (reconciled_differs_in_cost_only _ _ _ _ _ 0%nat r Hrun Hr).
Defined.



(** X10.  The ranked table lists the VMs in the order of their groups in
    the as-quoted table, each once, with the ordering key formatted as
    money and the keys in descending order. *)
Theorem ranked_table_follows_groups (estimate_rows : list report_row)
    (windows_pricing_data : gmap string (gmap string string))
    (df_final df_savings : list report_row) (df_ranked : list (string * string)) :
  build_final_dataframes estimate_rows windows_pricing_data
  = Ok (df_final, df_savings, df_ranked) →
  ∃ (vms : list (string * Q)) (total_payg total_1yr total_3yr : Q),
    df_ranked = map (fun vm => (vm.1, format_money vm.2)) vms
    ∧ StronglySorted (descending snd) vms
    ∧ NoDup (map fst df_ranked)
    ∧ df_final = flat_map (vm_group estimate_rows) (map fst df_ranked)
                 ++ totals_rows total_payg total_1yr total_3yr.
Proof.
  intros (vm_pricing & Hvm & Hf & _ & ->)%build_final_dataframes_inv.
  apply build_df_final_shape in Hf as (tp & t1 & t3 & ->).
  unfold build_vm_pricing in Hvm.
  apply vm_pricing_loop in Hvm as (Hnd & _ & _); [|constructor].
  exists (sort_vms vm_pricing), tp, t1, t3.
  assert (map fst (build_df_ranked (sort_vms vm_pricing)) = map fst (sort_vms vm_pricing))
    as Hnames by (unfold build_df_ranked; rewrite map_map; done).
  rewrite Hnames. split_and!; [done|apply sort_desc_sorted| |done].
  change (NoDup (fst <$> sort_vms vm_pricing)).
  unfold sort_vms. by rewrite sort_desc_perm.
Qed.

Lemma ranked_table_follows_groups_witness :
  ∃ df_final df_savings df_ranked,
    build_final_dataframes (build_azure_pricing get_prices [input_linux; input_win]).1 ∅
    = Ok (df_final, df_savings, df_ranked)
    ∧ ∃ (vms : list (string * Q)) (total_payg total_1yr total_3yr : Q),
        df_ranked = map (fun vm => (vm.1, format_money vm.2)) vms
        ∧ StronglySorted (descending snd) vms
        ∧ NoDup (map fst df_ranked)
        ∧ df_final =
          flat_map (vm_group (build_azure_pricing get_prices [input_linux; input_win]).1)
            (map fst df_ranked)
          ++ totals_rows total_payg total_1yr total_3yr.
Proof.
  assert (∃ out,
            build_final_dataframes (build_azure_pricing get_prices [input_linux; input_win]).1
              ∅ = Ok out) as [[[f s] k] Hrun]
    by (vm_compute; eexists; reflexivity).
  exists f, s, k. split; [exact Hrun|].
  exact (ranked_table_follows_groups _ _ _ _ _ Hrun).
Defined.
End ReportProperties.

(** ** Further properties of the matcher *)

Section MatcherProperties.
Import PyNum PyExn Matcher MatcherSpec PySort Examples.









(** X14.  In a run that returns, inputs.json has one row per selected
    recommendation, in the same order, with that recommendation's VM
    name, SKU, region and OS; no VM name occurs twice in it. *)
Theorem inputs_follow_selection (arrangement : list nat) (advisor_df : list advisor_row)
    (vm_pool : gmap (string * string) (list vm_entry)) (out : run_output) :
  generate_vm_recommendations arrangement advisor_df vm_pool = Ok out →
  length (out_inputs out) = length (out_impact_recs out)
  ∧ map in_vm_name (out_inputs out) = map rec_vm_name (out_impact_recs out)
  ∧ map in_sku (out_inputs out) = map rec_sku (out_impact_recs out)
  ∧ map in_region (out_inputs out) = map rec_region (out_impact_recs out)
  ∧ map in_os (out_inputs out) = map rec_os (out_impact_recs out)
  ∧ NoDup (map in_vm_name (out_inputs out)).
Proof.
  intros ->%generate_vm_recommendations_inv.
  cbn [recommend out_inputs out_impact_recs].
  rewrite length_map, !map_map. split_and!; try done.
  change (NoDup (rec_vm_name <$>
                 select_impact (sort_recommendations arrangement
                   (build_recommendations vm_pool (List.filter eligible advisor_df)).1))).
  apply select_impact_NoDup. unfold sort_recommendations. rewrite list_sort_desc_perm.
  apply build_recommendations_ok.
Qed.

Lemma inputs_follow_selection_witness :
  ∃ out,
    generate_vm_recommendations [] [adv_15; adv_nan; adv_20] pool_abc = Ok out
    ∧ length (out_inputs out) = length (out_impact_recs out)
    ∧ map in_vm_name (out_inputs out) = map rec_vm_name (out_impact_recs out)
    ∧ map in_sku (out_inputs out) = map rec_sku (out_impact_recs out)
    ∧ map in_region (out_inputs out) = map rec_region (out_impact_recs out)
    ∧ map in_os (out_inputs out) = map rec_os (out_impact_recs out)
    ∧ NoDup (map in_vm_name (out_inputs out)).
Proof.
  eexists. split; [reflexivity|].
  exact (inputs_follow_selection [] [adv_15; adv_nan; adv_20] pool_abc _ eq_refl).
Defined.

(** X15.  From a pool in which no VM name is repeated, one Advisor row
    claims the unclaimed VMs in pool order and stops after
    max(1, quantity) of them, or when the pool ends: the recommendations
    it adds and the names it marks as seen are exactly those. *)
Theorem advisor_row_claims (vm_pool : gmap (string * string) (list vm_entry))
    (adv : advisor_row) (recs : list recommendation) (seen : gset string) :
  NoDup (vm_name <$> default [] (vm_pool !! pool_key adv)) →
  let pool := default [] (vm_pool !! pool_key adv) in
  let quantity := PyNum.py_int (adv_quantity adv) in
  let taken := take (Z.to_nat (Z.max 1 quantity)) (unclaimed seen pool) in
  match_row vm_pool (recs, seen) adv
  = (recs ++ (make_rec adv <$> taken), list_to_set (vm_name <$> taken) ∪ seen).
Proof.
  intros Hnd. cbn zeta. unfold match_row.
  rewrite claim_pool_closed_form by done. cbn zeta. by rewrite Z.sub_0_r.
Qed.

Lemma advisor_row_claims_witness :
  NoDup (vm_name <$> default [] (pool_ab !! pool_key adv_zero))
  ∧ match_row pool_ab ([], ∅) adv_zero
    = ([] ++ (make_rec adv_zero <$>
              take (Z.to_nat (Z.max 1 (PyNum.py_int (adv_quantity adv_zero))))
                (unclaimed ∅ (default [] (pool_ab !! pool_key adv_zero)))),
       list_to_set (vm_name <$>
                    take (Z.to_nat (Z.max 1 (PyNum.py_int (adv_quantity adv_zero))))
                      (unclaimed ∅ (default [] (pool_ab !! pool_key adv_zero)))) ∪ ∅).
Proof.
  assert (NoDup (vm_name <$> default [] (pool_ab !! pool_key adv_zero))) as H.
  { vm_compute. apply NoDup_cons. split; [by intros ?%list_elem_of_singleton|].
    apply NoDup_singleton. }
  split; [exact H|].
  exact (advisor_row_claims pool_ab adv_zero [] ∅ H).
Defined.
End MatcherProperties.

(** ** Properties of the pool of running VMs *)

Section InventoryProperties.
Import PyStr Matcher Inventory.

Lemma pool_at_elem (cols : vm_columns) (vm_df : list vm_row) (key : string * string)
    (e : vm_entry) :
  e ∈ pool_at (build_vm_pool cols vm_df) key ↔
  e ∈ vm_entries cols vm_df ∧ entry_key e = key.
Proof. rewrite pool_at_build, list_elem_of_filter. naive_solver. Qed.

Lemma vm_entries_elem (cols : vm_columns) (vm_df : list vm_row) (e : vm_entry) :
  e ∈ vm_entries cols vm_df ↔
  ∃ n, n ∈ group_names (running_rows cols vm_df)
       ∧ e = entry_of cols n (group_of (running_rows cols vm_df) n).
Proof.
  unfold vm_entries. cbv zeta. rewrite list_elem_of_In, in_map_iff.
  split; intros (n & H1 & H2); exists n; rewrite ?list_elem_of_In in *; done.
Qed.

Lemma group_of_first (rows : list vm_row) (n : string) :
  n ∈ group_names rows →
  ∃ first rest, group_of rows n = first :: rest ∧ first ∈ rows ∧ vr_name first = Some n.
Proof.
  intros (r & Hr & Hn)%group_names_elem. unfold group_of.
  assert (r ∈ List.filter (has_name n) rows) as Hin.
  { apply elem_of_bool_filter. split; [done|]. unfold has_name. rewrite Hn.
    apply String.eqb_refl. }
  destruct (List.filter (has_name n) rows) as [|first rest] eqn:Hf;
    [by apply elem_of_nil in Hin|].
  assert (first ∈ List.filter (has_name n) rows) as Hfirst by (rewrite Hf; by left).
  apply elem_of_bool_filter in Hfirst as [Hfr Hfn]. unfold has_name in Hfn.
  destruct (vr_name first) as [m|] eqn:Hm; [|done].
  apply String.eqb_eq in Hfn as ->. eauto.
Qed.

Lemma running_rows_elem (cols : vm_columns) (vm_df : list vm_row) (r : vm_row) :
  r ∈ running_rows cols vm_df ↔
  r ∈ vm_df ∧ (has_power_state cols = true → is_running r = true).
Proof.
  unfold running_rows. destruct (has_power_state cols).
  - rewrite elem_of_bool_filter. naive_solver.
  - naive_solver.
Qed.


(** X17.  Under every key the pool lists its VMs in ascending order of
    VM name (the order of the group keys), whatever the order of the rows
    in the sheet. *)
Theorem pool_sorted_by_name (cols : vm_columns) (vm_df : list vm_row)
    (key : string * string) :
  StronglySorted name_le (vm_name <$> pool_at (build_vm_pool cols vm_df) key).
Proof.
  eapply StronglySorted_sublist; [apply pool_at_sublist|].
  unfold group_names. apply sort_names_sorted.
Qed.

(** X18.  Every pool entry describes the group of rows of its VM: the
    group is not empty, its first row in sheet order gives the size, OS
    and region (or "Unknown" for a missing column), and the tag is the
    stripped value of the first ApplicationName row of the group, else of
    its first CostCenter or Cost Center row, else "Unknown". *)
Theorem pool_entry_of_group (cols : vm_columns) (vm_df : list vm_row)
    (key : string * string) (e : vm_entry) :
  e ∈ pool_at (build_vm_pool cols vm_df) key →
  ∃ first rest,
    group_of (running_rows cols vm_df) (vm_name e) = first :: rest
    ∧ first ∈ vm_df ∧ vr_name first = Some (vm_name e)
    ∧ vm_size e = (if has_vm_size cols then vr_size first else "Unknown")
    ∧ vm_os e = (if has_os_type cols then vr_os_type first else "Unknown")
    ∧ vm_os_name e = (if has_os_name cols then vr_os_name first else "Unknown")
    ∧ vm_region e = (if has_location cols then vr_location first else "Unknown")
    ∧ vm_tags e =
      if has_tag_name cols && has_tag_value cols then
        match List.filter (tag_is ["ApplicationName"]) (first :: rest) with
        | app_row :: _ => strip (cell_text (vr_tag_value app_row))
        | [] =>
            match List.filter (tag_is ["CostCenter"; "Cost Center"]) (first :: rest) with
            | cost_row :: _ => strip (cell_text (vr_tag_value cost_row))
            | [] => "Unknown"
            end
        end
      else "Unknown".
Proof.
  intros [He _]%pool_at_elem.
  apply vm_entries_elem in He as (n & Hn & ->). cbn [entry_of vm_name].
  destruct (group_of_first _ _ Hn) as (first & rest & Hg & Hfirst & Hname).
  apply running_rows_elem in Hfirst as [Hfirst _].
  exists first, rest. cbn [vm_size vm_os vm_os_name vm_region vm_tags].
  rewrite Hg. unfold first_cell, tag_of.
  split_and!; try done; by destruct (_ cols).
Qed.

Lemma pool_entry_of_group_witness :
  ∃ e, e ∈ pool_at (build_vm_pool all_columns sheet) ("Standard_D2s_v3", "eastus")
    ∧ ∃ first rest,
        group_of (running_rows all_columns sheet) (vm_name e) = first :: rest
        ∧ first ∈ sheet ∧ vr_name first = Some (vm_name e)
        ∧ vm_size e = (if has_vm_size all_columns then vr_size first else "Unknown")
        ∧ vm_os e = (if has_os_type all_columns then vr_os_type first else "Unknown")
        ∧ vm_os_name e = (if has_os_name all_columns then vr_os_name first else "Unknown")
        ∧ vm_region e = (if has_location all_columns then vr_location first else "Unknown")
        ∧ vm_tags e =
          if has_tag_name all_columns && has_tag_value all_columns then
            match List.filter (tag_is ["ApplicationName"]) (first :: rest) with
            | app_row :: _ => strip (cell_text (vr_tag_value app_row))
            | [] =>
                match List.filter (tag_is ["CostCenter"; "Cost Center"]) (first :: rest) with
                | cost_row :: _ => strip (cell_text (vr_tag_value cost_row))
                | [] => "Unknown"
                end
            end
          else "Unknown".
Proof.
  assert (∃ e rest,
            pool_at (build_vm_pool all_columns sheet) ("Standard_D2s_v3", "eastus")
            = e :: rest) as (e & rest & Hpool)
    by (vm_compute; eexists _, _; reflexivity).
  assert (e ∈ pool_at (build_vm_pool all_columns sheet) ("Standard_D2s_v3", "eastus"))
    as H by (rewrite Hpool; left).
  exists e. split; [exact H|].
  exact (pool_entry_of_group all_columns sheet _ e H).
Defined.

(** The pool of the example sheet: the stopped VM is left out, the two
    running VMs share a key although their size and region cells are
    spelled differently, they stand in name order although the sheet has
    them the other way round, and the ApplicationName tag wins over the
    cost centre that comes first. *)
Example pool_of_the_sheet :
  map_to_list (build_vm_pool all_columns sheet)
  = [ (("Standard_D2s_v3", "eastus"),
       [ mk_vm "vm-a" " Standard_D2s_v3" "Windows" "Windows Server 2019" "eastus" "Unknown";
         mk_vm "vm-b" "Standard_D2s_v3" "Linux" "Ubuntu 22.04" "EastUS" "Billing" ]) ].
Proof. by vm_compute. Qed.

End InventoryProperties.
